(** * Cinema tickets: a shallow embedding of [TicketService] and [Config]

    The development follows [src/pairtest/TicketService.js] (both versions of
    the class that the repository holds: the one with hard-coded constants and
    the one that reads them from [config]) and [src/pairtest/lib/config.js].

    Modelling choices.
    - JavaScript numbers that hold ticket quantities, prices and totals are
      integers ([Z]) and their sums and products are exact.  The code computes
      with IEEE doubles, which agree with the exact integers as long as every
      operand and every result is a safe integer (at most
      [MAX_SAFE_INTEGER] = 2^53 - 1 in absolute value); beyond that the code
      rounds, prints a limit of 1e21 or more in exponent form and reads an
      overlong digit string as Infinity.  The version with hard-coded
      constants never leaves the safe range on an accepted purchase.  Every
      statement about the configured version whose truth depends on the
      arithmetic carries the safe range as a hypothesis ([SafeLimit],
      [SafePrices] and bounds on the total quantity and amount).
    - Strings are sequences of 8-bit characters; [parseInt] is modelled on
      ASCII white space only, which is exact for ASCII values.
    - The account identifier is an arbitrary JavaScript value, a finite number
      being a rational ([Q]).
    - [process.env] is a finite map from names to strings.
    - The two collaborators are mock-like: a call is appended to a log (the
      world) and returns normally.
    - A thrown exception is a [Throw] completion that carries the message. *)

From Stdlib Require Import ZArith QArith String Ascii List Lia DecimalString.
From Stdlib Require Import Permutation DecimalZ DecimalPos.
From stdpp Require Import base gmap strings.
Import ListNotations.

Close Scope Q_scope.
Local Open Scope string_scope.
Local Open Scope list_scope.
Local Open Scope Z_scope.

(** ** JavaScript values *)

Inductive JsValue : Type :=
| JsNumber (q : Q)            (* a finite Number *)
| JsNaN
| JsInfinity (negative : bool)
| JsString (s : string)
| JsBoolean (b : bool)
| JsNull
| JsUndefined
| JsObject.                   (* some object, e.g. an object literal *)

(** [Number.isInteger]: no coercion, so only a finite Number whose value is
    integral qualifies. *)
Definition Number_isInteger (v : JsValue) : bool :=
  match v with
  | JsNumber q => Pos.eqb (Qden (Qred q)) 1
  | _ => false
  end.

(** [v <= 0] for a value already known to be a Number. *)
Definition js_le_zero (v : JsValue) : bool :=
  match v with
  | JsNumber q => Qle_bool q (0 # 1)
  | JsInfinity negative => negative
  | _ => false
  end.

(** Template-literal rendering of an integral Number: all the digits, which
    is what the code prints for a safe integer (from 1e21 on the code prints
    an exponent form). *)
Definition string_of_Z (z : Z) : string := NilZero.string_of_int (Z.to_int z).

(** ** The library types the service works on *)

Inductive TicketType : Type := INFANT_T | CHILD_T | ADULT_T.

(** Modelled from the spec: [lib/TicketTypeRequest.js] is not part of the
    sources.  It is the immutable value with a category out of the fixed
    enumeration Adult, Child, Infant and an integer quantity, read through
    [getTicketType] and [getNoOfTickets]; the tests build one with quantity 0,
    so the quantity is any integer and the service checks its sign. *)
Record TicketTypeRequest : Type := mkTicketTypeRequest {
  getTicketType : TicketType;
  getNoOfTickets : Z
}.

(** Modelled from the spec: [lib/InvalidPurchaseException.js] is not part of
    the sources.  It is the single error kind, carrying a human-readable
    reason. *)
Record InvalidPurchaseException : Type := mkInvalidPurchaseException {
  message : string
}.

(** An argument of the rest parameter: an instance of [TicketTypeRequest] or
    anything else. *)
Inductive RequestArg : Type :=
| Ticket (request : TicketTypeRequest)
| Foreign (v : JsValue).

(** An object with the three keys INFANT, CHILD and ADULT: the shape of both
    the price table and the counts. *)
Record ByTicketType : Type := mkByTicketType {
  INFANT : Z;
  CHILD : Z;
  ADULT : Z
}.

Definition get (o : ByTicketType) (k : TicketType) : Z :=
  match k with
  | INFANT_T => INFANT o
  | CHILD_T => CHILD o
  | ADULT_T => ADULT o
  end.

(** [o[k] += n], the exact sum: the code's sum as long as it is a safe
    integer. *)
Definition add_at (o : ByTicketType) (k : TicketType) (n : Z) : ByTicketType :=
  match k with
  | INFANT_T => mkByTicketType (INFANT o + n) (CHILD o) (ADULT o)
  | CHILD_T => mkByTicketType (INFANT o) (CHILD o + n) (ADULT o)
  | ADULT_T => mkByTicketType (INFANT o) (CHILD o) (ADULT o + n)
  end.

(** ** Effects: the collaborators' call log and exceptions *)

Inductive Call : Type :=
| makePayment (accountId : JsValue) (totalAmountToPay : Z)
| reserveSeat (accountId : JsValue) (totalSeatsToAllocate : Z).

Definition World : Type := list Call.

Inductive Completion (E A : Type) : Type :=
| Normal (a : A)
| Throw (e : E).
Arguments Normal {E A} a.
Arguments Throw {E A} e.

Definition M (A : Type) : Type :=
  World -> Completion InvalidPurchaseException A * World.

Definition ret {A} (a : A) : M A := fun w => (Normal a, w).

Definition bind {A B} (m : M A) (k : A -> M B) : M B :=
  fun w =>
    match m w with
    | (Normal a, w') => k a w'
    | (Throw e, w') => (Throw e, w')
    end.

Definition throw {A} (msg : string) : M A :=
  fun w => (Throw (mkInvalidPurchaseException msg), w).

Definition call (c : Call) : M unit := fun w => (Normal tt, w ++ [c]).

Notation "'let!' x ':=' m 'in' k" := (bind m (fun x => k))
  (at level 10, x name, m at level 100, k at level 200).
Notation "'run!' m 'in' k" := (bind m (fun _ => k))
  (at level 10, m at level 100, k at level 200).

(** ** The messages of the exceptions *)

Definition msg_InvalidAccount : string :=
  "Account ID must be a positive integer".
Definition msg_NoRequests : string :=
  "At least one ticket type request must be provided".
Definition msg_InvalidRequest_instance : string :=
  "Invalid ticket type request".
Definition msg_InvalidRequest_quantity : string :=
  "Number of tickets must be greater than zero".
Definition msg_LimitExceeded (max : Z) : string :=
  String.append "Cannot purchase more than "
    (String.append (string_of_Z max) " tickets at a time").
Definition msg_MissingAdult : string :=
  "Child and Infant tickets cannot be purchased without at least one Adult ticket".
Definition msg_InfantRatioExceeded : string :=
  "Number of Infant tickets cannot exceed the number of Adult tickets (Infants sit on Adult laps)".

Definition InvalidAccount := mkInvalidPurchaseException msg_InvalidAccount.
Definition NoRequests := mkInvalidPurchaseException msg_NoRequests.
Definition LimitExceeded (max : Z) :=
  mkInvalidPurchaseException (msg_LimitExceeded max).
Definition MissingAdult := mkInvalidPurchaseException msg_MissingAdult.
Definition InfantRatioExceeded :=
  mkInvalidPurchaseException msg_InfantRatioExceeded.

(** ** [TicketService], the version that reads its constants from [config] *)

Record Config : Type := mkConfig {
  maxTickets : Z;
  ticketPrices : ByTicketType;
  enforceInfantAdultRatio : bool;
  nodeEnv : string
}.

Module Configured.

Record TicketService : Type := mkTicketService {
  TICKET_PRICES : ByTicketType;
  MAX_TICKETS : Z;
  ENFORCE_INFANT_ADULT_RATIO : bool
}.

(** The constructor; the collaborators are the world. *)
Definition new (config : Config) : TicketService :=
  {| TICKET_PRICES := ticketPrices config;
     MAX_TICKETS := maxTickets config;
     ENFORCE_INFANT_ADULT_RATIO := enforceInfantAdultRatio config |}.

Definition validateAccountId (accountId : JsValue) : M unit :=
  if negb (Number_isInteger accountId) || js_le_zero accountId
  then throw msg_InvalidAccount
  else ret tt.

Definition validateTicketRequestsExist (ticketTypeRequests : list RequestArg)
  : M unit :=
  if (length ticketTypeRequests =? 0)%nat
  then throw msg_NoRequests
  else ret tt.

(** The [for ... of] loop of [#countTicketsByType], with the counts so far. *)
Fixpoint countLoop (counts : ByTicketType) (ticketTypeRequests : list RequestArg)
  : M ByTicketType :=
  match ticketTypeRequests with
  | [] => ret counts
  | request :: rest =>
      match request with
      | Foreign _ => throw msg_InvalidRequest_instance
      | Ticket r =>
          let ticketType := getTicketType r in
          let numberOfTickets := getNoOfTickets r in
          if numberOfTickets <=? 0
          then throw msg_InvalidRequest_quantity
          else countLoop (add_at counts ticketType numberOfTickets) rest
      end
  end.

Definition countTicketsByType (ticketTypeRequests : list RequestArg)
  : M ByTicketType :=
  countLoop (mkByTicketType 0 0 0) ticketTypeRequests.

Definition validateBusinessRules (this : TicketService)
    (ticketCounts : ByTicketType) : M unit :=
  let totalTickets :=
    INFANT ticketCounts + CHILD ticketCounts + ADULT ticketCounts in
  if totalTickets >? MAX_TICKETS this
  then throw (msg_LimitExceeded (MAX_TICKETS this))
  else if ((CHILD ticketCounts >? 0) || (INFANT ticketCounts >? 0))
          && (ADULT ticketCounts =? 0)
  then throw msg_MissingAdult
  else if ENFORCE_INFANT_ADULT_RATIO this
          && (INFANT ticketCounts >? ADULT ticketCounts)
  then throw msg_InfantRatioExceeded
  else ret tt.

Definition calculateTotalAmount (this : TicketService)
    (ticketCounts : ByTicketType) : Z :=
  INFANT ticketCounts * INFANT (TICKET_PRICES this)
  + CHILD ticketCounts * CHILD (TICKET_PRICES this)
  + ADULT ticketCounts * ADULT (TICKET_PRICES this).

Definition calculateTotalSeats (ticketCounts : ByTicketType) : Z :=
  CHILD ticketCounts + ADULT ticketCounts.

Definition purchaseTickets (this : TicketService) (accountId : JsValue)
    (ticketTypeRequests : list RequestArg) : M unit :=
  run! validateAccountId accountId in
  run! validateTicketRequestsExist ticketTypeRequests in
  let! ticketCounts := countTicketsByType ticketTypeRequests in
  run! validateBusinessRules this ticketCounts in
  let totalAmount := calculateTotalAmount this ticketCounts in
  let totalSeats := calculateTotalSeats ticketCounts in
  run! call (makePayment accountId totalAmount) in
  call (reserveSeat accountId totalSeats).

End Configured.

(** ** [TicketService], the version with hard-coded constants *)

Module Hardcoded.

Definition TICKET_PRICES : ByTicketType :=
  {| INFANT := 0; CHILD := 15; ADULT := 25 |}.

Definition MAX_TICKETS : Z := 25.

Definition validateAccountId (accountId : JsValue) : M unit :=
  if negb (Number_isInteger accountId) || js_le_zero accountId
  then throw msg_InvalidAccount
  else ret tt.

Definition validateTicketRequestsExist (ticketTypeRequests : list RequestArg)
  : M unit :=
  if (length ticketTypeRequests =? 0)%nat
  then throw msg_NoRequests
  else ret tt.

Fixpoint countLoop (counts : ByTicketType) (ticketTypeRequests : list RequestArg)
  : M ByTicketType :=
  match ticketTypeRequests with
  | [] => ret counts
  | request :: rest =>
      match request with
      | Foreign _ => throw msg_InvalidRequest_instance
      | Ticket r =>
          let ticketType := getTicketType r in
          let numberOfTickets := getNoOfTickets r in
          (* Validate positive number of tickets *)
          if numberOfTickets <=? 0
          then throw msg_InvalidRequest_quantity
          else countLoop (add_at counts ticketType numberOfTickets) rest
      end
  end.

Definition countTicketsByType (ticketTypeRequests : list RequestArg)
  : M ByTicketType :=
  countLoop (mkByTicketType 0 0 0) ticketTypeRequests.

Definition validateBusinessRules (ticketCounts : ByTicketType) : M unit :=
  let totalTickets :=
    INFANT ticketCounts + CHILD ticketCounts + ADULT ticketCounts in
  (* Rule: Maximum 25 tickets can be purchased at a time *)
  if totalTickets >? MAX_TICKETS
  then throw (msg_LimitExceeded MAX_TICKETS)
  (* Rule: Child and Infant tickets cannot be purchased without an Adult
     ticket *)
  else if ((CHILD ticketCounts >? 0) || (INFANT ticketCounts >? 0))
          && (ADULT ticketCounts =? 0)
  then throw msg_MissingAdult
  (* Additional validation: one infant per adult max *)
  else if INFANT ticketCounts >? ADULT ticketCounts
  then throw msg_InfantRatioExceeded
  else ret tt.

Definition calculateTotalAmount (ticketCounts : ByTicketType) : Z :=
  INFANT ticketCounts * INFANT TICKET_PRICES
  + CHILD ticketCounts * CHILD TICKET_PRICES
  + ADULT ticketCounts * ADULT TICKET_PRICES.

Definition calculateTotalSeats (ticketCounts : ByTicketType) : Z :=
  CHILD ticketCounts + ADULT ticketCounts.

Definition purchaseTickets (accountId : JsValue)
    (ticketTypeRequests : list RequestArg) : M unit :=
  run! validateAccountId accountId in
  run! validateTicketRequestsExist ticketTypeRequests in
  let! ticketCounts := countTicketsByType ticketTypeRequests in
  run! validateBusinessRules ticketCounts in
  let totalAmount := calculateTotalAmount ticketCounts in
  let totalSeats := calculateTotalSeats ticketCounts in
  run! call (makePayment accountId totalAmount) in
  call (reserveSeat accountId totalSeats).

End Hardcoded.

(** ** [lib/config.js] *)

(** White space that [parseInt] skips, as far as it is ASCII: tab, line feed,
    vertical tab, form feed, carriage return, space. *)
Definition isWhiteSpace (c : ascii) : bool :=
  let n := nat_of_ascii c in
  ((9 <=? n) && (n <=? 13) || (n =? 32))%nat.

Fixpoint trimStart (s : string) : string :=
  match s with
  | String c rest => if isWhiteSpace c then trimStart rest else s
  | EmptyString => s
  end.

Definition digit_of (c : ascii) : option Z :=
  let n := nat_of_ascii c in
  if ((48 <=? n) && (n <=? 57))%nat then Some (Z.of_nat n - 48) else None.

(** The longest prefix of decimal digits, read with the digits seen so far;
    [None] when there is no digit at all. *)
Fixpoint readDigits (acc : option Z) (s : string) : option Z :=
  match s with
  | String c rest =>
      match digit_of c with
      | Some d =>
          readDigits (Some (10 * match acc with Some a => a | None => 0 end + d))
            rest
      | None => acc
      end
  | EmptyString => acc
  end.

(** [parseInt(value, 10)]; [None] is NaN.  The result is the integer that
    the digits denote, which is what the code returns when it is a safe
    integer; leading white space is skipped as far as it is ASCII. *)
Definition parseInt10 (value : string) : option Z :=
  match trimStart value with
  | String "-" rest => option_map Z.opp (readDigits None rest)
  | String "+" rest => readDigits None rest
  | s => readDigits None s
  end.

Definition toLowerCase_ascii (c : ascii) : ascii :=
  let n := nat_of_ascii c in
  if ((65 <=? n) && (n <=? 90))%nat then ascii_of_nat (n + 32) else c.

(** [String.prototype.toLowerCase] on ASCII letters. *)
Fixpoint toLowerCase (s : string) : string :=
  match s with
  | String c rest => String (toLowerCase_ascii c) (toLowerCase rest)
  | EmptyString => EmptyString
  end.

Module ConfigJs.

(** An [Error] thrown while the module loads carries its message. *)
Definition Result (A : Type) : Type := Completion string A.

Definition getEnvAsInt (env : gmap string string) (key : string)
    (defaultValue : Z) : Result Z :=
  match env !! key with
  | None => Normal defaultValue
  | Some value =>
      if String.eqb value "" then Normal defaultValue
      else
        match parseInt10 value with
        | None =>
            Throw (String.append "Environment variable "
                    (String.append key
                      (String.append " must be a valid integer, got: " value)))
        | Some parsed => Normal parsed
        end
  end.

Definition getEnvAsBool (env : gmap string string) (key : string)
    (defaultValue : bool) : bool :=
  match env !! key with
  | None => defaultValue
  | Some value =>
      if String.eqb value "" then defaultValue
      else String.eqb (toLowerCase value) "true" || String.eqb value "1"
  end.

Definition validate (this : Config) : Result unit :=
  if maxTickets this <=? 0
  then Throw "MAX_TICKETS must be a positive integer"
  else if (INFANT (ticketPrices this) <? 0)
          || (CHILD (ticketPrices this) <? 0)
          || (ADULT (ticketPrices this) <? 0)
  then Throw "Ticket prices must be non-negative"
  else if ADULT (ticketPrices this) <=? 0
  then Throw "Adult ticket price must be greater than zero"
  else Normal tt.

Definition andThen {A B} (r : Result A) (k : A -> Result B) : Result B :=
  match r with
  | Normal a => k a
  | Throw e => Throw e
  end.

(** The constructor, in the order of its assignments. *)
Definition new (env : gmap string string) : Result Config :=
  andThen (getEnvAsInt env "MAX_TICKETS" 25) (fun maxTickets =>
  andThen (getEnvAsInt env "TICKET_PRICE_INFANT" 0) (fun infant =>
  andThen (getEnvAsInt env "TICKET_PRICE_CHILD" 15) (fun child =>
  andThen (getEnvAsInt env "TICKET_PRICE_ADULT" 25) (fun adult =>
  let enforce := getEnvAsBool env "ENFORCE_INFANT_ADULT_RATIO" true in
  let nodeEnv :=
    match env !! "NODE_ENV" with
    | None => "development"
    | Some v => if String.eqb v "" then "development" else v
    end in
  let this :=
    {| maxTickets := maxTickets;
       ticketPrices := {| INFANT := infant; CHILD := child; ADULT := adult |};
       enforceInfantAdultRatio := enforce;
       nodeEnv := nodeEnv |} in
  andThen (validate this) (fun _ => Normal this))))).

End ConfigJs.

(** ** The words of the specification *)

(** A positive integer account identifier: a finite Number equal to some
    positive integer. *)
Inductive PositiveInteger : JsValue -> Prop :=
| PositiveInteger_intro (q : Q) (p : positive) :
    Qeq q (inject_Z (Z.pos p)) -> PositiveInteger (JsNumber q).

(** A valid category/quantity pair with quantity > 0. *)
Inductive ValidItem : RequestArg -> Prop :=
| ValidItem_intro (r : TicketTypeRequest) :
    0 < getNoOfTickets r -> ValidItem (Ticket r).

Definition TicketType_eqb (a b : TicketType) : bool :=
  match a, b with
  | INFANT_T, INFANT_T | CHILD_T, CHILD_T | ADULT_T, ADULT_T => true
  | _, _ => false
  end.

(** What one request contributes to a category. *)
Definition quantity_for (c : TicketType) (a : RequestArg) : Z :=
  match a with
  | Ticket r => if TicketType_eqb (getTicketType r) c then getNoOfTickets r else 0
  | Foreign _ => 0
  end.

(** Aggregate counts: the quantities summed per category over all requests. *)
Definition aggregated (c : TicketType) (requests : list RequestArg) : Z :=
  fold_right Z.add 0 (map (quantity_for c) requests).

Definition total_quantity (requests : list RequestArg) : Z :=
  aggregated INFANT_T requests + aggregated CHILD_T requests
  + aggregated ADULT_T requests.

(** price = sum over the categories of count times unit price. *)
Definition spec_price (prices : ByTicketType) (requests : list RequestArg) : Z :=
  fold_right Z.add 0
    (map (fun c => aggregated c requests * get prices c)
       [INFANT_T; CHILD_T; ADULT_T]).

(** seats = Adult count + Child count. *)
Definition spec_seats (requests : list RequestArg) : Z :=
  aggregated ADULT_T requests + aggregated CHILD_T requests.

(** The first item that is not a valid pair, with its message. *)
Fixpoint first_item_error (requests : list RequestArg) : option string :=
  match requests with
  | [] => None
  | Foreign _ :: _ => Some msg_InvalidRequest_instance
  | Ticket r :: rest =>
      if getNoOfTickets r <=? 0 then Some msg_InvalidRequest_quantity
      else first_item_error rest
  end.

Definition positive_integerb (v : JsValue) : bool :=
  Number_isInteger v && negb (js_le_zero v).

(** The first violated rule of section 4.1, in the order in which the
    specification lists the checks; [None] when the purchase is valid. *)
Definition first_violation (max : Z) (ratio : bool) (accountId : JsValue)
    (requests : list RequestArg) : option InvalidPurchaseException :=
  if negb (positive_integerb accountId) then Some InvalidAccount
  else match requests with
  | [] => Some NoRequests
  | _ :: _ =>
    match first_item_error requests with
    | Some msg => Some (mkInvalidPurchaseException msg)
    | None =>
      if total_quantity requests >? max then Some (LimitExceeded max)
      else if ((aggregated CHILD_T requests >? 0)
               || (aggregated INFANT_T requests >? 0))
              && (aggregated ADULT_T requests =? 0)
      then Some MissingAdult
      else if ratio
              && (aggregated INFANT_T requests >? aggregated ADULT_T requests)
      then Some InfantRatioExceeded
      else None
    end
  end.

(** ** Auxiliary definitions *)

(** The counts after the loop: the counts before plus the aggregate. *)
Definition plus_aggregate (counts : ByTicketType) (requests : list RequestArg)
  : ByTicketType :=
  {| INFANT := INFANT counts + aggregated INFANT_T requests;
     CHILD := CHILD counts + aggregated CHILD_T requests;
     ADULT := ADULT counts + aggregated ADULT_T requests |}.

(** The hard-coded constants, seen as a service of the configured version. *)
Definition hardcoded_service : Configured.TicketService :=
  {| Configured.TICKET_PRICES := Hardcoded.TICKET_PRICES;
     Configured.MAX_TICKETS := Hardcoded.MAX_TICKETS;
     Configured.ENFORCE_INFANT_ADULT_RATIO := true |}.

(** The two collaborator calls of a successful purchase. *)
Definition calls_of (prices : ByTicketType) (accountId : JsValue)
    (requests : list RequestArg) : list Call :=
  [ makePayment accountId (spec_price prices requests);
    reserveSeat accountId (spec_seats requests) ].

(** The configuration that has every default, and shorthands for the
    examples. *)
Definition default_config : Config :=
  {| maxTickets := 25;
     ticketPrices := {| INFANT := 0; CHILD := 15; ADULT := 25 |};
     enforceInfantAdultRatio := true;
     nodeEnv := "development" |}.

Definition request (ticketType : TicketType) (noOfTickets : Z) : RequestArg :=
  Ticket (mkTicketTypeRequest ticketType noOfTickets).

Definition account (n : Z) : JsValue := JsNumber (inject_Z n).

(** The environment variables that [Config] reads. *)
Definition config_variables : list string :=
  [ "MAX_TICKETS"; "TICKET_PRICE_INFANT"; "TICKET_PRICE_CHILD";
    "TICKET_PRICE_ADULT"; "ENFORCE_INFANT_ADULT_RATIO"; "NODE_ENV" ].

Definition integer_variables : list string :=
  [ "MAX_TICKETS"; "TICKET_PRICE_INFANT"; "TICKET_PRICE_CHILD";
    "TICKET_PRICE_ADULT" ].

(** What a variable is set to, an empty string counting as not set. *)
Definition setting (env : gmap string string) (key : string) : option string :=
  match env !! key with
  | Some value => if String.eqb value "" then None else Some value
  | None => None
  end.

(** The number that a sequence of decimal digits denotes, after the digits
    that denote [a]. *)
Fixpoint uint_value (d : Decimal.uint) (a : Z) : Z :=
  match d with
  | Decimal.Nil => a
  | Decimal.D0 d => uint_value d (10 * a + 0)
  | Decimal.D1 d => uint_value d (10 * a + 1)
  | Decimal.D2 d => uint_value d (10 * a + 2)
  | Decimal.D3 d => uint_value d (10 * a + 3)
  | Decimal.D4 d => uint_value d (10 * a + 4)
  | Decimal.D5 d => uint_value d (10 * a + 5)
  | Decimal.D6 d => uint_value d (10 * a + 6)
  | Decimal.D7 d => uint_value d (10 * a + 7)
  | Decimal.D8 d => uint_value d (10 * a + 8)
  | Decimal.D9 d => uint_value d (10 * a + 9)
  end.

Definition starts_with_digit (s : string) : bool :=
  match s with
  | String c _ => match digit_of c with Some _ => true | None => false end
  | EmptyString => false
  end.

(** ** The safe integer range *)

(** [Number.MAX_SAFE_INTEGER]: up to here the doubles hold every integer, and
    a sum or product whose exact value lies in the range is computed
    exactly. *)
Definition MAX_SAFE_INTEGER : Z := 9007199254740991.

Definition safe_integer (z : Z) : Prop := Z.abs z <= MAX_SAFE_INTEGER.

(** The limit is a safe integer: comparisons with it are exact and the
    template literal prints all its digits. *)
Definition SafeLimit (this : Configured.TicketService) : Prop :=
  safe_integer (Configured.MAX_TICKETS this).

(** The prices satisfy the invariant that [Config] enforces and are safe
    integers. *)
Definition SafePrices (this : Configured.TicketService) : Prop :=
  0 <= INFANT (Configured.TICKET_PRICES this) <= MAX_SAFE_INTEGER
  /\ 0 <= CHILD (Configured.TICKET_PRICES this) <= MAX_SAFE_INTEGER
  /\ 0 < ADULT (Configured.TICKET_PRICES this) <= MAX_SAFE_INTEGER.

(** A string of ASCII characters. *)
Fixpoint ascii_only (s : string) : bool :=
  match s with
  | String c rest => (nat_of_ascii c <? 128)%nat && ascii_only rest
  | EmptyString => true
  end.

(** ** Auxiliary facts *)

Section Numbers.

Lemma Qred_den_one_integral (q : Q) :
  Qden (Qred q) = 1%positive -> Qeq q (inject_Z (Qnum (Qred q))).
Proof.
  intros Hden. rewrite <- (Qred_correct q) at 1.
  destruct (Qred q) as [n d]. simpl in *. subst d. reflexivity.
Qed.

Lemma Qred_inject_Z_eq (z : Z) : Qred (inject_Z z) = inject_Z z.
Proof.
  unfold inject_Z, Qred.
  pose proof (Z.ggcd_gcd z 1) as Hg.
  pose proof (Z.ggcd_correct_divisors z 1) as Hd.
  destruct (Z.ggcd z 1) as [g [a b]]. simpl in *.
  rewrite Z.gcd_1_r in Hg. subst g. destruct Hd as [Ha Hb].
  rewrite Z.mul_1_l in Ha, Hb. subst. reflexivity.
Qed.

Lemma positive_integerb_spec (v : JsValue) :
  positive_integerb v = true <-> PositiveInteger v.
Proof.
  unfold positive_integerb. split.
  - destruct v; try (intros H; cbv in H; discriminate H).
    cbn [Number_isInteger js_le_zero].
    rewrite andb_true_iff, negb_true_iff. intros [Hi Hle].
    apply Pos.eqb_eq in Hi.
    pose proof (Qred_den_one_integral q Hi) as Heq.
    destruct (Qnum (Qred q)) as [|p|p] eqn:Hn.
    + exfalso. assert (Qle_bool q (0 # 1) = true); [|congruence].
      apply Qle_bool_iff. rewrite Heq. unfold Qle, inject_Z. simpl. lia.
    + now apply PositiveInteger_intro with p.
    + exfalso. assert (Qle_bool q (0 # 1) = true); [|congruence].
      apply Qle_bool_iff. rewrite Heq. unfold Qle, inject_Z. simpl. lia.
  - intros [q p Heq]. cbn [Number_isInteger js_le_zero].
    apply Qred_complete in Heq. rewrite Qred_inject_Z_eq in Heq.
    rewrite Heq. rewrite andb_true_iff, negb_true_iff. split; [reflexivity|].
    destruct (Qle_bool q (0 # 1)) eqn:Hle; [|reflexivity].
    exfalso. apply Qle_bool_iff in Hle.
    rewrite <- (Qred_correct q), Heq in Hle.
    unfold Qle, inject_Z in Hle. simpl in Hle. lia.
Qed.

Lemma not_positive_integerb (v : JsValue) :
  ~ PositiveInteger v -> positive_integerb v = false.
Proof.
  intros Hn. destruct (positive_integerb v) eqn:Hb; [|reflexivity].
  exfalso. apply Hn. now apply positive_integerb_spec.
Qed.

End Numbers.

Section Counting.

Lemma countLoop_first_item_error (requests : list RequestArg) :
  forall counts w,
    Configured.countLoop counts requests w =
    match first_item_error requests with
    | Some msg => (Throw (mkInvalidPurchaseException msg), w)
    | None => (Normal (plus_aggregate counts requests), w)
    end.
Proof.
  induction requests as [|[r|v] rest IH]; intros counts w.
  - unfold plus_aggregate, aggregated. simpl. unfold ret.
    destruct counts; simpl. now rewrite !Z.add_0_r.
  - cbn [Configured.countLoop first_item_error].
    destruct (getNoOfTickets r <=? 0); [reflexivity|].
    rewrite IH. destruct (first_item_error rest); [reflexivity|].
    f_equal. f_equal. unfold plus_aggregate, aggregated.
    cbn [map fold_right quantity_for].
    destruct r as [[] n], counts; cbn; f_equal; lia.
  - reflexivity.
Qed.

Lemma countTicketsByType_spec (requests : list RequestArg) (w : World) :
  Configured.countTicketsByType requests w =
  match first_item_error requests with
  | Some msg => (Throw (mkInvalidPurchaseException msg), w)
  | None =>
      (Normal {| INFANT := aggregated INFANT_T requests;
                 CHILD := aggregated CHILD_T requests;
                 ADULT := aggregated ADULT_T requests |}, w)
  end.
Proof.
  unfold Configured.countTicketsByType.
  rewrite countLoop_first_item_error.
  destruct (first_item_error requests); reflexivity.
Qed.

Lemma first_item_error_valid (requests : list RequestArg) :
  Forall ValidItem requests -> first_item_error requests = None.
Proof.
  induction 1 as [|a rest Ha _ IH]; [reflexivity|].
  destruct Ha as [r Hr]. cbn [first_item_error].
  destruct (Z.leb_spec (getNoOfTickets r) 0); [lia|assumption].
Qed.

Lemma first_item_error_none (requests : list RequestArg) :
  first_item_error requests = None -> Forall ValidItem requests.
Proof.
  induction requests as [|[r|v] rest IH]; cbn [first_item_error]; intros H.
  - constructor.
  - destruct (Z.leb_spec (getNoOfTickets r) 0); [discriminate|].
    constructor; [now constructor | auto].
  - discriminate.
Qed.

Lemma quantity_for_nonneg (c : TicketType) (a : RequestArg) :
  ValidItem a -> 0 <= quantity_for c a.
Proof.
  intros [r Hr]. cbn. destruct (TicketType_eqb _ _); lia.
Qed.

Lemma aggregated_nonneg (c : TicketType) (requests : list RequestArg) :
  Forall ValidItem requests -> 0 <= aggregated c requests.
Proof.
  unfold aggregated. induction 1 as [|a rest Ha _ IH]; cbn; [lia|].
  pose proof (quantity_for_nonneg c a Ha). lia.
Qed.

(** A non-empty list of valid items holds at least one ticket. *)
Lemma total_quantity_pos (requests : list RequestArg) :
  requests <> [] -> Forall ValidItem requests -> 0 < total_quantity requests.
Proof.
  intros Hne Hall. destruct Hall as [|a rest Ha Hrest]; [congruence|].
  pose proof (aggregated_nonneg INFANT_T rest Hrest).
  pose proof (aggregated_nonneg CHILD_T rest Hrest).
  pose proof (aggregated_nonneg ADULT_T rest Hrest).
  destruct Ha as [[c n] Hn]. unfold total_quantity, aggregated in *.
  cbn in *. destruct c; cbn; lia.
Qed.

End Counting.

Section Agreement.

(** The private methods that the two versions of the class share word for
    word compute the same. *)
Lemma validateAccountId_same (accountId : JsValue) :
  Hardcoded.validateAccountId accountId = Configured.validateAccountId accountId.
Proof. reflexivity. Qed.

Lemma validateTicketRequestsExist_same (requests : list RequestArg) :
  Hardcoded.validateTicketRequestsExist requests =
  Configured.validateTicketRequestsExist requests.
Proof. reflexivity. Qed.

Lemma countLoop_same (requests : list RequestArg) :
  forall counts,
    Hardcoded.countLoop counts requests = Configured.countLoop counts requests.
Proof.
  induction requests as [|[r|v] rest IH]; intros counts; cbn; reflexivity.
Qed.

Lemma countTicketsByType_same (requests : list RequestArg) :
  Hardcoded.countTicketsByType requests = Configured.countTicketsByType requests.
Proof. apply countLoop_same. Qed.

Lemma validateBusinessRules_same (ticketCounts : ByTicketType) :
  Hardcoded.validateBusinessRules ticketCounts =
  Configured.validateBusinessRules hardcoded_service ticketCounts.
Proof. reflexivity. Qed.

Lemma purchaseTickets_same (accountId : JsValue) (requests : list RequestArg) :
  Hardcoded.purchaseTickets accountId requests =
  Configured.purchaseTickets hardcoded_service accountId requests.
Proof.
  unfold Hardcoded.purchaseTickets, Configured.purchaseTickets.
  now rewrite countTicketsByType_same.
Qed.

End Agreement.

Section Characterisation.

Variable this : Configured.TicketService.

(** [purchaseTickets] throws the first violated rule and leaves the
    collaborators alone, or pays and reserves, in this order. *)
Lemma purchaseTickets_first_violation (accountId : JsValue)
    (requests : list RequestArg) (w : World) :
  Configured.purchaseTickets this accountId requests w =
  match first_violation (Configured.MAX_TICKETS this)
          (Configured.ENFORCE_INFANT_ADULT_RATIO this) accountId requests with
  | Some e => (Throw e, w)
  | None =>
      (Normal tt, w ++ calls_of (Configured.TICKET_PRICES this) accountId requests)
  end.
Proof.
  unfold Configured.purchaseTickets, first_violation, bind at 1.
  unfold Configured.validateAccountId, positive_integerb.
  rewrite negb_andb, negb_involutive.
  destruct (negb (Number_isInteger accountId) || js_le_zero accountId);
    [reflexivity|].
  unfold ret at 1. unfold bind at 1.
  destruct requests as [|a rest]; [reflexivity|].
  cbn [Configured.validateTicketRequestsExist length Nat.eqb].
  unfold ret at 1. unfold bind at 1.
  rewrite countTicketsByType_spec.
  destruct (first_item_error (a :: rest)); [reflexivity|].
  unfold bind at 1. unfold Configured.validateBusinessRules.
  cbn [INFANT CHILD ADULT]. fold (total_quantity (a :: rest)).
  destruct (total_quantity (a :: rest) >? Configured.MAX_TICKETS this);
    [reflexivity|].
  destruct (((aggregated CHILD_T (a :: rest) >? 0)
             || (aggregated INFANT_T (a :: rest) >? 0))
            && (aggregated ADULT_T (a :: rest) =? 0)); [reflexivity|].
  destruct (Configured.ENFORCE_INFANT_ADULT_RATIO this
            && (aggregated INFANT_T (a :: rest) >? aggregated ADULT_T (a :: rest)));
    [reflexivity|].
  unfold ret, bind, call, calls_of. rewrite <- app_assoc. cbn [app].
  unfold Configured.calculateTotalAmount, Configured.calculateTotalSeats,
    spec_price, spec_seats.
  cbn [INFANT CHILD ADULT map fold_right get].
  do 3 f_equal; [f_equal; lia | do 2 f_equal; lia].
Qed.

End Characterisation.

Section Verdict.

Variables (max : Z) (ratio : bool).

(** A valid purchase is one that passes every check. *)
Lemma first_violation_none (accountId : JsValue) (requests : list RequestArg) :
  first_violation max ratio accountId requests = None ->
  PositiveInteger accountId /\ requests <> [] /\ Forall ValidItem requests
  /\ total_quantity requests <= max
  /\ 1 <= aggregated ADULT_T requests
  /\ (ratio = true -> aggregated INFANT_T requests <= aggregated ADULT_T requests).
Proof.
  unfold first_violation.
  destruct (positive_integerb accountId) eqn:Hacc; [|discriminate].
  cbn [negb]. destruct requests as [|a rest]; [discriminate|].
  destruct (first_item_error (a :: rest)) eqn:Hitems; [discriminate|].
  apply first_item_error_none in Hitems.
  pose proof (total_quantity_pos (a :: rest) ltac:(discriminate) Hitems) as Hpos.
  pose proof (aggregated_nonneg INFANT_T _ Hitems).
  pose proof (aggregated_nonneg CHILD_T _ Hitems).
  pose proof (aggregated_nonneg ADULT_T _ Hitems).
  unfold total_quantity in *.
  destruct (Z.gtb_spec (aggregated INFANT_T (a :: rest)
                        + aggregated CHILD_T (a :: rest)
                        + aggregated ADULT_T (a :: rest)) max); [discriminate|].
  destruct (Z.gtb_spec (aggregated CHILD_T (a :: rest)) 0),
           (Z.gtb_spec (aggregated INFANT_T (a :: rest)) 0),
           (Z.eqb_spec (aggregated ADULT_T (a :: rest)) 0);
    cbn [orb andb]; try discriminate; try lia;
    (destruct ratio; cbn [andb];
     [ destruct (Z.gtb_spec (aggregated INFANT_T (a :: rest))
                   (aggregated ADULT_T (a :: rest))); [discriminate|]
     | ]; intros _;
     (split; [now apply positive_integerb_spec|]);
     (split; [discriminate|]); (split; [assumption|]);
     repeat split; intros; try lia; try discriminate).
Qed.

(** Conversely, a purchase that passes every check violates nothing. *)
Lemma first_violation_valid (accountId : JsValue) (requests : list RequestArg) :
  PositiveInteger accountId -> requests <> [] -> Forall ValidItem requests ->
  total_quantity requests <= max ->
  (0 < aggregated CHILD_T requests \/ 0 < aggregated INFANT_T requests ->
   0 < aggregated ADULT_T requests) ->
  (ratio = true -> aggregated INFANT_T requests <= aggregated ADULT_T requests) ->
  first_violation max ratio accountId requests = None.
Proof.
  intros Hacc Hne Hitems Hle Hadult Hratio. unfold first_violation.
  apply positive_integerb_spec in Hacc. rewrite Hacc. cbn [negb].
  destruct requests as [|a rest]; [congruence|].
  rewrite (first_item_error_valid _ Hitems).
  destruct (Z.gtb_spec (total_quantity (a :: rest)) max); [lia|].
  destruct (Z.gtb_spec (aggregated CHILD_T (a :: rest)) 0),
           (Z.gtb_spec (aggregated INFANT_T (a :: rest)) 0),
           (Z.eqb_spec (aggregated ADULT_T (a :: rest)) 0);
    cbn [orb andb]; try lia;
    (destruct ratio; cbn [andb]; [|reflexivity];
     destruct (Z.gtb_spec (aggregated INFANT_T (a :: rest))
                 (aggregated ADULT_T (a :: rest))); [|reflexivity];
     specialize (Hratio eq_refl); lia).
Qed.

Lemma first_violation_limit (accountId : JsValue) (requests : list RequestArg) :
  PositiveInteger accountId -> requests <> [] -> Forall ValidItem requests ->
  max < total_quantity requests ->
  first_violation max ratio accountId requests = Some (LimitExceeded max).
Proof.
  intros Hacc Hne Hitems Hgt. unfold first_violation.
  apply positive_integerb_spec in Hacc. rewrite Hacc. cbn [negb].
  destruct requests as [|a rest]; [congruence|].
  rewrite (first_item_error_valid _ Hitems).
  destruct (Z.gtb_spec (total_quantity (a :: rest)) max); [reflexivity|lia].
Qed.

Lemma first_violation_missing_adult (accountId : JsValue)
    (requests : list RequestArg) :
  PositiveInteger accountId -> requests <> [] -> Forall ValidItem requests ->
  total_quantity requests <= max ->
  0 < aggregated CHILD_T requests \/ 0 < aggregated INFANT_T requests ->
  aggregated ADULT_T requests = 0 ->
  first_violation max ratio accountId requests = Some MissingAdult.
Proof.
  intros Hacc Hne Hitems Hle Hminor Hadult. unfold first_violation.
  apply positive_integerb_spec in Hacc. rewrite Hacc. cbn [negb].
  destruct requests as [|a rest]; [congruence|].
  rewrite (first_item_error_valid _ Hitems).
  destruct (Z.gtb_spec (total_quantity (a :: rest)) max); [lia|].
  rewrite Hadult. cbn [Z.eqb]. rewrite andb_true_r.
  destruct (Z.gtb_spec (aggregated CHILD_T (a :: rest)) 0),
           (Z.gtb_spec (aggregated INFANT_T (a :: rest)) 0);
    cbn [orb]; try reflexivity; lia.
Qed.

Lemma first_violation_ratio (accountId : JsValue) (requests : list RequestArg) :
  ratio = true ->
  PositiveInteger accountId -> requests <> [] -> Forall ValidItem requests ->
  total_quantity requests <= max ->
  1 <= aggregated ADULT_T requests ->
  aggregated ADULT_T requests < aggregated INFANT_T requests ->
  first_violation max ratio accountId requests = Some InfantRatioExceeded.
Proof.
  intros Hratio Hacc Hne Hitems Hle Hadult Hgt. unfold first_violation.
  apply positive_integerb_spec in Hacc. rewrite Hacc. cbn [negb].
  destruct requests as [|a rest]; [congruence|].
  rewrite (first_item_error_valid _ Hitems).
  destruct (Z.gtb_spec (total_quantity (a :: rest)) max); [lia|].
  destruct (Z.eqb_spec (aggregated ADULT_T (a :: rest)) 0); [lia|].
  rewrite andb_false_r, Hratio. cbn [andb].
  destruct (Z.gtb_spec (aggregated INFANT_T (a :: rest))
              (aggregated ADULT_T (a :: rest))); [reflexivity|lia].
Qed.

Lemma first_violation_account (accountId : JsValue) (requests : list RequestArg) :
  ~ PositiveInteger accountId ->
  first_violation max ratio accountId requests = Some InvalidAccount.
Proof.
  intros Hacc. unfold first_violation.
  now rewrite (not_positive_integerb _ Hacc).
Qed.

End Verdict.

Section ConfigFacts.

Lemma validate_normal (this : Config) :
  ConfigJs.validate this = Normal tt ->
  0 < maxTickets this /\ 0 <= INFANT (ticketPrices this)
  /\ 0 <= CHILD (ticketPrices this) /\ 0 < ADULT (ticketPrices this).
Proof.
  unfold ConfigJs.validate.
  destruct (Z.leb_spec (maxTickets this) 0); [discriminate|].
  destruct (Z.ltb_spec (INFANT (ticketPrices this)) 0); [discriminate|].
  destruct (Z.ltb_spec (CHILD (ticketPrices this)) 0); [discriminate|].
  destruct (Z.ltb_spec (ADULT (ticketPrices this)) 0); [discriminate|].
  cbn [orb].
  destruct (Z.leb_spec (ADULT (ticketPrices this)) 0); [discriminate|].
  intros _. lia.
Qed.

Lemma validate_throws (this : Config) :
  maxTickets this <= 0 \/ INFANT (ticketPrices this) < 0
  \/ CHILD (ticketPrices this) < 0 \/ ADULT (ticketPrices this) <= 0 ->
  exists msg, ConfigJs.validate this = Throw msg.
Proof.
  intros H. destruct (ConfigJs.validate this) as [[]|msg] eqn:Hv.
  - apply validate_normal in Hv. lia.
  - now exists msg.
Qed.

(** What the constructor returns went through [#validate]. *)
Lemma new_validated (env : gmap string string) (config : Config) :
  ConfigJs.new env = Normal config -> ConfigJs.validate config = Normal tt.
Proof.
  unfold ConfigJs.new, ConfigJs.andThen.
  destruct (ConfigJs.getEnvAsInt env "MAX_TICKETS" 25); [|discriminate].
  destruct (ConfigJs.getEnvAsInt env "TICKET_PRICE_INFANT" 0); [|discriminate].
  destruct (ConfigJs.getEnvAsInt env "TICKET_PRICE_CHILD" 15); [|discriminate].
  destruct (ConfigJs.getEnvAsInt env "TICKET_PRICE_ADULT" 25); [|discriminate].
  match goal with
  | |- match ConfigJs.validate ?c with _ => _ end = _ -> _ =>
      destruct (ConfigJs.validate c) as [[]|] eqn:Hv; [|discriminate]
  end.
  intros [= <-]. exact Hv.
Qed.

End ConfigFacts.

Lemma not_positive_integer_zero : ~ PositiveInteger (account 0).
Proof.
  intros H. apply positive_integerb_spec in H. discriminate H.
Defined.

(** A purchase that returns normally passed every check. *)
Lemma purchaseTickets_normal_inv (this : Configured.TicketService)
    (accountId : JsValue) (requests : list RequestArg) (w w' : World) :
  Configured.purchaseTickets this accountId requests w = (Normal tt, w') ->
  PositiveInteger accountId /\ requests <> [] /\ Forall ValidItem requests
  /\ total_quantity requests <= Configured.MAX_TICKETS this
  /\ 1 <= aggregated ADULT_T requests
  /\ (Configured.ENFORCE_INFANT_ADULT_RATIO this = true ->
      aggregated INFANT_T requests <= aggregated ADULT_T requests).
Proof.
  rewrite purchaseTickets_first_violation.
  destruct (first_violation _ _ _ _) eqn:Hv; [discriminate|].
  intros _. now apply first_violation_none in Hv.
Qed.

(** ** The properties of section 8 *)

(** C1: for every request set that [purchaseTickets] accepts (a valid
    account, at least one request, only valid items of positive quantity, and
    every business rule passing) the call returns normally, the amount paid is
    the sum over the categories of the aggregated count times the unit price
    (with the hard-coded prices: Adult 25, Child 15, Infant 0) and the number
    of seats reserved is the Adult count plus the Child count; Infants
    contribute no seat.  For the configured version the limit, the prices and
    the amount are safe integers, so that the code's sums and products are the
    exact ones. *)
Theorem C1_price_and_seats (this : Configured.TicketService)
    (accountId : JsValue) (requests : list RequestArg) (w : World)
    (Haccount : PositiveInteger accountId)
    (Hnonempty : requests <> [])
    (Hitems : Forall ValidItem requests)
    (Hadult : 0 < aggregated CHILD_T requests \/ 0 < aggregated INFANT_T requests ->
              0 < aggregated ADULT_T requests) :
  (SafeLimit this -> SafePrices this ->
   total_quantity requests <= Configured.MAX_TICKETS this ->
   (Configured.ENFORCE_INFANT_ADULT_RATIO this = true ->
    aggregated INFANT_T requests <= aggregated ADULT_T requests) ->
   aggregated INFANT_T requests * INFANT (Configured.TICKET_PRICES this)
   + aggregated CHILD_T requests * CHILD (Configured.TICKET_PRICES this)
   + aggregated ADULT_T requests * ADULT (Configured.TICKET_PRICES this)
   <= MAX_SAFE_INTEGER ->
   Configured.purchaseTickets this accountId requests w =
   (Normal tt,
    w ++
     [ makePayment accountId
         (aggregated INFANT_T requests * INFANT (Configured.TICKET_PRICES this)
          + aggregated CHILD_T requests * CHILD (Configured.TICKET_PRICES this)
          + aggregated ADULT_T requests * ADULT (Configured.TICKET_PRICES this));
       reserveSeat accountId
         (aggregated ADULT_T requests + aggregated CHILD_T requests) ]))
  /\
  (total_quantity requests <= 25 ->
   aggregated INFANT_T requests <= aggregated ADULT_T requests ->
   Hardcoded.purchaseTickets accountId requests w =
   (Normal tt,
    w ++
     [ makePayment accountId
         (aggregated INFANT_T requests * 0 + aggregated CHILD_T requests * 15
          + aggregated ADULT_T requests * 25);
       reserveSeat accountId
         (aggregated ADULT_T requests + aggregated CHILD_T requests) ])).
Proof.
  assert (Hgen : forall svc,
    total_quantity requests <= Configured.MAX_TICKETS svc ->
    (Configured.ENFORCE_INFANT_ADULT_RATIO svc = true ->
     aggregated INFANT_T requests <= aggregated ADULT_T requests) ->
    Configured.purchaseTickets svc accountId requests w =
    (Normal tt,
     w ++
      [ makePayment accountId
          (aggregated INFANT_T requests * INFANT (Configured.TICKET_PRICES svc)
           + aggregated CHILD_T requests * CHILD (Configured.TICKET_PRICES svc)
           + aggregated ADULT_T requests * ADULT (Configured.TICKET_PRICES svc));
        reserveSeat accountId
          (aggregated ADULT_T requests + aggregated CHILD_T requests) ])).
  { intros svc Hle Hratio. rewrite purchaseTickets_first_violation.
    rewrite first_violation_valid by assumption.
    unfold calls_of, spec_price, spec_seats.
    cbn [map fold_right get]. do 4 f_equal. lia. }
  split.
  - intros _ _ Hle Hratio _. now apply Hgen.
  - intros Hle Hratio. rewrite purchaseTickets_same.
    apply (Hgen hardcoded_service); [exact Hle | intros _; exact Hratio].
Qed.

Lemma C1_price_and_seats_witness :
  let requests :=
    [request ADULT_T 2; request CHILD_T 2; request INFANT_T 1; request ADULT_T 1] in
  let w' := [makePayment (account 7) 105; reserveSeat (account 7) 5] in
  Configured.purchaseTickets (Configured.new default_config) (account 7) requests []
  = (Normal tt, w')
  /\ Hardcoded.purchaseTickets (account 7) requests [] = (Normal tt, w').
Proof.
  intros requests w'.
  assert (Haccount : PositiveInteger (account 7)).
  { apply (PositiveInteger_intro _ 7). reflexivity. }
  assert (Hnonempty : requests <> []) by discriminate.
  assert (Hitems : Forall ValidItem requests).
  { repeat constructor. }
  assert (Hadult : 0 < aggregated CHILD_T requests
                   \/ 0 < aggregated INFANT_T requests ->
                   0 < aggregated ADULT_T requests).
  { intros _. reflexivity. }
  destruct (C1_price_and_seats (Configured.new default_config) (account 7)
              requests [] Haccount Hnonempty Hitems Hadult)
    as [Hconfigured Hhardcoded].
  split.
  - apply Hconfigured.
    + unfold SafeLimit, safe_integer, MAX_SAFE_INTEGER. cbn. lia.
    + unfold SafePrices, MAX_SAFE_INTEGER. cbn. lia.
    + discriminate.
    + intros _. discriminate.
    + discriminate.
  - apply Hhardcoded; discriminate.
Defined.

(** C2: for every call of [purchaseTickets], a failed validation (a thrown
    exception) leaves both collaborators uncalled, and a call that passes all
    validation calls the payment collaborator exactly once with the account
    and the total price and then the seat-reservation collaborator exactly
    once with the account and the total seats.  In particular account 1 with
    requests (Adult,2),(Child,3) pays 95 and reserves 5 seats, and account 1
    with (Adult,1),(Infant,2) fails with InfantRatioExceeded and calls
    nothing.  For the configured version the limit, the prices, the total
    quantity and the amount are safe integers. *)
Theorem C2_collaborators (this : Configured.TicketService)
    (accountId : JsValue) (requests : list RequestArg) (w : World) :
  (SafeLimit this -> SafePrices this ->
   total_quantity requests <= MAX_SAFE_INTEGER ->
   spec_price (Configured.TICKET_PRICES this) requests <= MAX_SAFE_INTEGER ->
   match Configured.purchaseTickets this accountId requests w with
   | (Throw _, w') => w' = w
   | (Normal _, w') =>
       w' = w ++ [ makePayment accountId
                     (spec_price (Configured.TICKET_PRICES this) requests);
                   reserveSeat accountId (spec_seats requests) ]
   end)
  /\ match Hardcoded.purchaseTickets accountId requests w with
     | (Throw _, w') => w' = w
     | (Normal _, w') =>
         w' = w ++ [ makePayment accountId
                       (spec_price Hardcoded.TICKET_PRICES requests);
                     reserveSeat accountId (spec_seats requests) ]
     end
  /\ Configured.purchaseTickets (Configured.new default_config) (account 1)
       [request ADULT_T 2; request CHILD_T 3] []
     = (Normal tt, [makePayment (account 1) 95; reserveSeat (account 1) 5])
  /\ Hardcoded.purchaseTickets (account 1)
       [request ADULT_T 2; request CHILD_T 3] []
     = (Normal tt, [makePayment (account 1) 95; reserveSeat (account 1) 5])
  /\ Configured.purchaseTickets (Configured.new default_config) (account 1)
       [request ADULT_T 1; request INFANT_T 2] []
     = (Throw InfantRatioExceeded, []).
Proof.
  split; [|split; [|repeat split]].
  - intros _ _ _ _. rewrite purchaseTickets_first_violation.
    destruct (first_violation _ _ _ _); reflexivity.
  - rewrite purchaseTickets_same, purchaseTickets_first_violation.
    destruct (first_violation _ _ _ _); reflexivity.
Qed.

Lemma C2_collaborators_witness :
  match Configured.purchaseTickets (Configured.new default_config) (account 1)
          [request ADULT_T 2; request CHILD_T 3] [] with
  | (Throw _, w') => w' = []
  | (Normal _, w') =>
      w' = [makePayment (account 1) 95; reserveSeat (account 1) 5]
  end.
Proof.
  apply (proj1 (C2_collaborators (Configured.new default_config) (account 1)
                  [request ADULT_T 2; request CHILD_T 3] [])).
  - unfold SafeLimit, safe_integer, MAX_SAFE_INTEGER. cbn. lia.
  - unfold SafePrices, MAX_SAFE_INTEGER. cbn. lia.
  - discriminate.
  - discriminate.
Defined.

(** C3: for every request set with a valid account, at least one request and
    only valid items of positive quantity, whose total aggregated quantity
    exceeds the configured maximum (25 when hard-coded), the purchase fails
    with LimitExceeded, whatever the mix of categories; no collaborator is
    called.  For the configured version the limit and the total quantity are
    safe integers. *)
Theorem C3_limit_exceeded (this : Configured.TicketService)
    (accountId : JsValue) (requests : list RequestArg) (w : World)
    (Haccount : PositiveInteger accountId)
    (Hnonempty : requests <> [])
    (Hitems : Forall ValidItem requests) :
  (SafeLimit this ->
   total_quantity requests <= MAX_SAFE_INTEGER ->
   Configured.MAX_TICKETS this < total_quantity requests ->
   Configured.purchaseTickets this accountId requests w
   = (Throw (LimitExceeded (Configured.MAX_TICKETS this)), w))
  /\
  (25 < total_quantity requests ->
   Hardcoded.purchaseTickets accountId requests w
   = (Throw (LimitExceeded 25), w)).
Proof.
  split; [intros _ _ Hgt | intros Hgt].
  - rewrite purchaseTickets_first_violation.
    now rewrite first_violation_limit.
  - rewrite purchaseTickets_same, purchaseTickets_first_violation.
    now rewrite first_violation_limit.
Qed.

Lemma C3_limit_exceeded_witness :
  let requests := [request ADULT_T 10; request CHILD_T 10; request INFANT_T 6] in
  Configured.purchaseTickets (Configured.new default_config) (account 1) requests []
  = (Throw (LimitExceeded 25), [])
  /\ Hardcoded.purchaseTickets (account 1) requests []
     = (Throw (LimitExceeded 25), []).
Proof.
  intros requests.
  assert (Haccount : PositiveInteger (account 1)).
  { apply (PositiveInteger_intro _ 1). reflexivity. }
  assert (Hnonempty : requests <> []) by discriminate.
  assert (Hitems : Forall ValidItem requests).
  { repeat constructor. }
  destruct (C3_limit_exceeded (Configured.new default_config) (account 1)
              requests [] Haccount Hnonempty Hitems) as [Hconfigured Hhardcoded].
  split; [apply Hconfigured | apply Hhardcoded].
  - unfold SafeLimit, safe_integer, MAX_SAFE_INTEGER. cbn. lia.
  - discriminate.
  - reflexivity.
  - reflexivity.
Defined.

(** C4, as stated, fails: 26 Child tickets and no Adult ticket exceed the
    limit of 25, and the limit is checked first. *)
Lemma C4_missing_adult_counterexample :
  let requests := [request CHILD_T 26] in
  PositiveInteger (account 1) /\ requests <> [] /\ Forall ValidItem requests
  /\ (0 < aggregated CHILD_T requests \/ 0 < aggregated INFANT_T requests)
  /\ aggregated ADULT_T requests = 0
  /\ Configured.purchaseTickets (Configured.new default_config) (account 1)
       requests [] = (Throw (LimitExceeded 25), [])
  /\ Hardcoded.purchaseTickets (account 1) requests []
     = (Throw (LimitExceeded 25), [])
  /\ LimitExceeded 25 <> MissingAdult.
Proof.
  intros requests. split.
  { apply (PositiveInteger_intro _ 1). reflexivity. }
  split; [discriminate|]. split; [repeat constructor|].
  split; [left; reflexivity|]. split; [reflexivity|].
  split; [reflexivity|]. split; [reflexivity|]. discriminate.
Qed.

(** C4 (amended): for every request set with a valid account, at least one
    request and only valid items of positive quantity, whose total does not
    exceed the maximum, whose aggregated Child or Infant count is greater
    than 0 and whose aggregated Adult count is 0, the purchase fails with
    MissingAdult; no collaborator is called.  For the configured version the
    limit is a safe integer. *)
Theorem C4_missing_adult (this : Configured.TicketService)
    (accountId : JsValue) (requests : list RequestArg) (w : World)
    (Haccount : PositiveInteger accountId)
    (Hnonempty : requests <> [])
    (Hitems : Forall ValidItem requests)
    (Hminor : 0 < aggregated CHILD_T requests \/ 0 < aggregated INFANT_T requests)
    (Hadult : aggregated ADULT_T requests = 0) :
  (SafeLimit this ->
   total_quantity requests <= Configured.MAX_TICKETS this ->
   Configured.purchaseTickets this accountId requests w = (Throw MissingAdult, w))
  /\
  (total_quantity requests <= 25 ->
   Hardcoded.purchaseTickets accountId requests w = (Throw MissingAdult, w)).
Proof.
  split; [intros _ Hle | intros Hle].
  - rewrite purchaseTickets_first_violation.
    now rewrite first_violation_missing_adult.
  - rewrite purchaseTickets_same, purchaseTickets_first_violation.
    now rewrite first_violation_missing_adult.
Qed.

Lemma C4_missing_adult_witness :
  let requests := [request CHILD_T 2; request INFANT_T 1] in
  Configured.purchaseTickets (Configured.new default_config) (account 1) requests []
  = (Throw MissingAdult, [])
  /\ Hardcoded.purchaseTickets (account 1) requests [] = (Throw MissingAdult, []).
Proof.
  intros requests.
  assert (Haccount : PositiveInteger (account 1)).
  { apply (PositiveInteger_intro _ 1). reflexivity. }
  assert (Hnonempty : requests <> []) by discriminate.
  assert (Hitems : Forall ValidItem requests).
  { repeat constructor. }
  assert (Hminor : 0 < aggregated CHILD_T requests \/ 0 < aggregated INFANT_T requests).
  { left. reflexivity. }
  destruct (C4_missing_adult (Configured.new default_config) (account 1)
              requests [] Haccount Hnonempty Hitems Hminor eq_refl)
    as [Hconfigured Hhardcoded].
  split; [apply Hconfigured | apply Hhardcoded].
  - unfold SafeLimit, safe_integer, MAX_SAFE_INTEGER. cbn. lia.
  - discriminate.
  - discriminate.
Defined.

(** C5, as stated, fails: one Infant ticket and no Adult ticket has more
    Infants than Adults, yet the rule on the missing Adult is checked before
    the ratio rule; likewise 13 Adults with 14 Infants exceed the limit, which
    is checked before both. *)
Lemma C5_infant_ratio_counterexample :
  let requests := [request INFANT_T 1] in
  let crowd := [request ADULT_T 13; request INFANT_T 14] in
  Configured.ENFORCE_INFANT_ADULT_RATIO (Configured.new default_config) = true
  /\ PositiveInteger (account 1) /\ requests <> [] /\ Forall ValidItem requests
  /\ aggregated ADULT_T requests < aggregated INFANT_T requests
  /\ Configured.purchaseTickets (Configured.new default_config) (account 1)
       requests [] = (Throw MissingAdult, [])
  /\ Hardcoded.purchaseTickets (account 1) requests [] = (Throw MissingAdult, [])
  /\ MissingAdult <> InfantRatioExceeded
  /\ Forall ValidItem crowd
  /\ aggregated ADULT_T crowd < aggregated INFANT_T crowd
  /\ Configured.purchaseTickets (Configured.new default_config) (account 1)
       crowd [] = (Throw (LimitExceeded 25), [])
  /\ LimitExceeded 25 <> InfantRatioExceeded.
Proof.
  intros requests crowd. split; [reflexivity|]. split.
  { apply (PositiveInteger_intro _ 1). reflexivity. }
  split; [discriminate|]. split; [repeat constructor|].
  split; [reflexivity|]. split; [reflexivity|]. split; [reflexivity|].
  split; [discriminate|]. split; [repeat constructor|].
  split; [reflexivity|]. split; [reflexivity|]. discriminate.
Qed.

(** C5 (amended): with the ratio rule enabled, for every request set with a
    valid account, at least one request and only valid items of positive
    quantity, whose total does not exceed the maximum, whose aggregated Adult
    count is at least 1 and whose aggregated Infant count exceeds the
    aggregated Adult count, the purchase fails with InfantRatioExceeded; no
    collaborator is called.  The hard-coded version has the rule always
    enabled.  For the configured version the limit is a safe integer. *)
Theorem C5_infant_ratio (this : Configured.TicketService)
    (accountId : JsValue) (requests : list RequestArg) (w : World)
    (Haccount : PositiveInteger accountId)
    (Hnonempty : requests <> [])
    (Hitems : Forall ValidItem requests)
    (Hadult : 1 <= aggregated ADULT_T requests)
    (Hinfants : aggregated ADULT_T requests < aggregated INFANT_T requests) :
  (SafeLimit this ->
   Configured.ENFORCE_INFANT_ADULT_RATIO this = true ->
   total_quantity requests <= Configured.MAX_TICKETS this ->
   Configured.purchaseTickets this accountId requests w
   = (Throw InfantRatioExceeded, w))
  /\
  (total_quantity requests <= 25 ->
   Hardcoded.purchaseTickets accountId requests w
   = (Throw InfantRatioExceeded, w)).
Proof.
  split.
  - intros _ Hratio Hle. rewrite purchaseTickets_first_violation.
    now rewrite first_violation_ratio.
  - intros Hle. rewrite purchaseTickets_same, purchaseTickets_first_violation.
    now rewrite first_violation_ratio.
Qed.

Lemma C5_infant_ratio_witness :
  let requests := [request ADULT_T 1; request INFANT_T 2] in
  Configured.purchaseTickets (Configured.new default_config) (account 1) requests []
  = (Throw InfantRatioExceeded, [])
  /\ Hardcoded.purchaseTickets (account 1) requests []
     = (Throw InfantRatioExceeded, []).
Proof.
  intros requests.
  assert (Haccount : PositiveInteger (account 1)).
  { apply (PositiveInteger_intro _ 1). reflexivity. }
  assert (Hnonempty : requests <> []) by discriminate.
  assert (Hitems : Forall ValidItem requests).
  { repeat constructor. }
  assert (Hadult : 1 <= aggregated ADULT_T requests) by discriminate.
  assert (Hinfants : aggregated ADULT_T requests < aggregated INFANT_T requests)
    by reflexivity.
  destruct (C5_infant_ratio (Configured.new default_config) (account 1)
              requests [] Haccount Hnonempty Hitems Hadult Hinfants)
    as [Hconfigured Hhardcoded].
  split; [apply Hconfigured | apply Hhardcoded].
  - unfold SafeLimit, safe_integer, MAX_SAFE_INTEGER. cbn. lia.
  - reflexivity.
  - discriminate.
  - discriminate.
Defined.

(** C6: for every account identifier that is not a positive integer (zero,
    negative, not integral, not a number at all) and any request list, the
    purchase fails with InvalidAccount and calls no collaborator; the check
    comes before every other one, so the request list may also be empty or
    hold invalid items. *)
Theorem C6_invalid_account (this : Configured.TicketService)
    (accountId : JsValue) (requests : list RequestArg) (w : World)
    (Haccount : ~ PositiveInteger accountId) :
  Configured.purchaseTickets this accountId requests w = (Throw InvalidAccount, w)
  /\ Hardcoded.purchaseTickets accountId requests w = (Throw InvalidAccount, w).
Proof.
  split.
  - rewrite purchaseTickets_first_violation.
    now rewrite first_violation_account.
  - rewrite purchaseTickets_same, purchaseTickets_first_violation.
    now rewrite first_violation_account.
Qed.

Lemma C6_invalid_account_witness :
  Configured.purchaseTickets (Configured.new default_config) (account 0)
    [request ADULT_T 1] [] = (Throw InvalidAccount, [])
  /\ Hardcoded.purchaseTickets (account 0) [request ADULT_T 1] []
     = (Throw InvalidAccount, []).
Proof.
  exact (C6_invalid_account (Configured.new default_config) (account 0)
           [request ADULT_T 1] [] not_positive_integer_zero).
Defined.

(** The account check wins over an empty list, a foreign argument, a zero
    quantity, and for identifiers of every kind. *)
Example invalid_account_first :
  Hardcoded.purchaseTickets (account (-5)) [] [] = (Throw InvalidAccount, [])
  /\ Hardcoded.purchaseTickets (JsNumber (3 # 2)) [Foreign JsObject] []
     = (Throw InvalidAccount, [])
  /\ Hardcoded.purchaseTickets (JsString "abc") [request ADULT_T 0] []
     = (Throw InvalidAccount, [])
  /\ Hardcoded.purchaseTickets JsNull [request CHILD_T 26] []
     = (Throw InvalidAccount, []).
Proof. repeat split. Qed.

(** C7: whenever a purchase completes without error the aggregated Adult
    count is at least 1; so the seat-reservation collaborator gets at least 1
    seat and the payment collaborator gets at least the Adult unit price, a
    strictly positive amount.  For the configured version the configuration
    is one that the [Config] constructor returned, and its limit, its prices
    and the amount are safe integers; the hard-coded version needs no such
    bound. *)
Theorem C7_adult_present (accountId : JsValue) (requests : list RequestArg)
    (w w' : World) :
  (forall env config,
     ConfigJs.new env = Normal config ->
     SafeLimit (Configured.new config) ->
     SafePrices (Configured.new config) ->
     spec_price (ticketPrices config) requests <= MAX_SAFE_INTEGER ->
     Configured.purchaseTickets (Configured.new config) accountId requests w
     = (Normal tt, w') ->
     1 <= aggregated ADULT_T requests
     /\ exists amount seats,
          w' = w ++ [makePayment accountId amount; reserveSeat accountId seats]
          /\ 1 <= seats
          /\ ADULT (ticketPrices config) <= amount
          /\ 0 < amount)
  /\
  (Hardcoded.purchaseTickets accountId requests w = (Normal tt, w') ->
   1 <= aggregated ADULT_T requests
   /\ exists amount seats,
        w' = w ++ [makePayment accountId amount; reserveSeat accountId seats]
        /\ 1 <= seats
        /\ 25 <= amount
        /\ 0 < amount).
Proof.
  assert (Hgen : forall svc,
    0 <= INFANT (Configured.TICKET_PRICES svc) ->
    0 <= CHILD (Configured.TICKET_PRICES svc) ->
    0 < ADULT (Configured.TICKET_PRICES svc) ->
    Configured.purchaseTickets svc accountId requests w = (Normal tt, w') ->
    1 <= aggregated ADULT_T requests
    /\ exists amount seats,
         w' = w ++ [makePayment accountId amount; reserveSeat accountId seats]
         /\ 1 <= seats
         /\ ADULT (Configured.TICKET_PRICES svc) <= amount
         /\ 0 < amount).
  { intros svc Hi Hc Ha. rewrite purchaseTickets_first_violation.
    destruct (first_violation _ _ _ _) eqn:Hv; [discriminate|].
    intros [= <-].
    apply first_violation_none in Hv.
    destruct Hv as (_ & _ & Hitems & _ & Hadult & _).
    pose proof (aggregated_nonneg INFANT_T _ Hitems).
    pose proof (aggregated_nonneg CHILD_T _ Hitems).
    split; [assumption|].
    eexists _, _. split; [reflexivity|].
    unfold spec_seats, spec_price. cbn [map fold_right get].
    repeat split; nia. }
  split.
  - intros env config Hnew _ _ _. apply new_validated, validate_normal in Hnew.
    apply Hgen; cbn; lia.
  - rewrite purchaseTickets_same. intros H.
    apply (Hgen hardcoded_service) in H; cbn; try lia. exact H.
Qed.

Lemma C7_adult_present_witness :
  let requests := [request ADULT_T 1; request INFANT_T 1] in
  let w' := [makePayment (account 400) 25; reserveSeat (account 400) 1] in
  ConfigJs.new ∅ = Normal default_config
  /\ Configured.purchaseTickets (Configured.new default_config) (account 400)
       requests [] = (Normal tt, w')
  /\ 1 <= aggregated ADULT_T requests
  /\ 1 <= aggregated ADULT_T requests.
Proof.
  intros requests w'. split; [reflexivity|]. split; [reflexivity|].
  destruct (C7_adult_present (account 400) requests [] w')
    as [Hconfigured Hhardcoded].
  split.
  - refine (proj1 (Hconfigured ∅ default_config eq_refl _ _ _ eq_refl)).
    + unfold SafeLimit, safe_integer, MAX_SAFE_INTEGER. cbn. lia.
    + unfold SafePrices, MAX_SAFE_INTEGER. cbn. lia.
    + discriminate.
  - exact (proj1 (Hhardcoded eq_refl)).
Defined.

(** C8: the version of [TicketService] with hard-coded prices, limit 25 and
    an unconditional infant-per-adult rule, and the version that reads them
    from the configuration, have the same outcome on every input (the same
    exception, or the same two collaborator calls with the same arguments)
    whenever the configuration holds maxTickets 25, prices Adult 25, Child 15,
    Infant 0 and an enforced ratio rule. *)
Theorem C8_versions_agree (config : Config) (accountId : JsValue)
    (requests : list RequestArg) (w : World)
    (Hmax : maxTickets config = 25)
    (Hprices : ticketPrices config = {| INFANT := 0; CHILD := 15; ADULT := 25 |})
    (Hratio : enforceInfantAdultRatio config = true) :
  Hardcoded.purchaseTickets accountId requests w
  = Configured.purchaseTickets (Configured.new config) accountId requests w.
Proof.
  rewrite purchaseTickets_same. f_equal.
  unfold hardcoded_service, Configured.new. now rewrite Hmax, Hprices, Hratio.
Qed.

Lemma C8_versions_agree_witness :
  ConfigJs.new ∅ = Normal default_config
  /\ Hardcoded.purchaseTickets (account 30)
       [request ADULT_T 2; request ADULT_T 3; request CHILD_T 1] []
     = Configured.purchaseTickets (Configured.new default_config) (account 30)
         [request ADULT_T 2; request ADULT_T 3; request CHILD_T 1] [].
Proof.
  split; [reflexivity|].
  exact (C8_versions_agree default_config (account 30)
           [request ADULT_T 2; request ADULT_T 3; request CHILD_T 1] []
           eq_refl eq_refl eq_refl).
Defined.

(** C9: the [Config] constructor establishes and enforces the pricing
    invariant.  When the environment overrides nothing, the configuration is
    maxTickets 25, prices Adult 25, Child 15, Infant 0, ratio rule enforced;
    every configuration that the constructor returns has a positive maxTickets,
    no negative price and a strictly positive Adult price; and the constructor
    throws whenever the values it read have maxTickets not positive, some
    price negative or the Adult price not strictly positive. *)
Theorem C9_config_invariant :
  (forall env : gmap string string,
     env !! "MAX_TICKETS" = None ->
     env !! "TICKET_PRICE_INFANT" = None ->
     env !! "TICKET_PRICE_CHILD" = None ->
     env !! "TICKET_PRICE_ADULT" = None ->
     env !! "ENFORCE_INFANT_ADULT_RATIO" = None ->
     exists config,
       ConfigJs.new env = Normal config
       /\ maxTickets config = 25
       /\ ticketPrices config = {| INFANT := 0; CHILD := 15; ADULT := 25 |}
       /\ enforceInfantAdultRatio config = true)
  /\
  (forall (env : gmap string string) config,
     ConfigJs.new env = Normal config ->
     0 < maxTickets config
     /\ 0 <= INFANT (ticketPrices config)
     /\ 0 <= CHILD (ticketPrices config)
     /\ 0 < ADULT (ticketPrices config))
  /\
  (forall (env : gmap string string) max infant child adult,
     ConfigJs.getEnvAsInt env "MAX_TICKETS" 25 = Normal max ->
     ConfigJs.getEnvAsInt env "TICKET_PRICE_INFANT" 0 = Normal infant ->
     ConfigJs.getEnvAsInt env "TICKET_PRICE_CHILD" 15 = Normal child ->
     ConfigJs.getEnvAsInt env "TICKET_PRICE_ADULT" 25 = Normal adult ->
     max <= 0 \/ infant < 0 \/ child < 0 \/ adult <= 0 ->
     exists msg, ConfigJs.new env = Throw msg).
Proof.
  split; [|split].
  - intros env Hmax Hinfant Hchild Hadult Hratio.
    unfold ConfigJs.new, ConfigJs.getEnvAsInt, ConfigJs.getEnvAsBool.
    rewrite Hmax, Hinfant, Hchild, Hadult, Hratio.
    cbn. eexists. split; [reflexivity|]. repeat split.
  - intros env config Hnew. now apply validate_normal, new_validated with env.
  - intros env max infant child adult Hmax Hinfant Hchild Hadult Hbad.
    unfold ConfigJs.new. rewrite Hmax, Hinfant, Hchild, Hadult.
    cbn [ConfigJs.andThen]. cbv zeta.
    match goal with
    | |- exists _, ConfigJs.andThen (ConfigJs.validate ?c) _ = _ =>
        destruct (validate_throws c Hbad) as [msg Hmsg]; rewrite Hmsg
    end.
    now exists msg.
Qed.

Lemma C9_config_invariant_witness :
  ConfigJs.new ∅ = Normal default_config
  /\ (0 < maxTickets default_config
      /\ 0 <= INFANT (ticketPrices default_config)
      /\ 0 <= CHILD (ticketPrices default_config)
      /\ 0 < ADULT (ticketPrices default_config))
  /\ ConfigJs.new (<["TICKET_PRICE_ADULT" := "0"]> ∅)
     = Throw "Adult ticket price must be greater than zero"
  /\ exists msg, ConfigJs.new (<["TICKET_PRICE_CHILD" := "-1"]> ∅) = Throw msg.
Proof.
  destruct C9_config_invariant as (_ & Hvalidated & Hthrows).
  split; [reflexivity|]. split.
  - exact (Hvalidated ∅ default_config eq_refl).
  - split; [reflexivity|].
    apply (Hthrows (<["TICKET_PRICE_CHILD" := "-1"]> ∅) 25 0 (-1) 25);
      try reflexivity.
    right. right. left. reflexivity.
Defined.

(** ** Further properties of [purchaseTickets] *)

Section Aggregates.

Lemma aggregated_app (c : TicketType) (l1 l2 : list RequestArg) :
  aggregated c (l1 ++ l2) = aggregated c l1 + aggregated c l2.
Proof.
  unfold aggregated. induction l1 as [|a l1 IH]; cbn [app map fold_right]; lia.
Qed.

Lemma aggregated_Permutation (c : TicketType) (l1 l2 : list RequestArg) :
  Permutation l1 l2 -> aggregated c l1 = aggregated c l2.
Proof.
  unfold aggregated. induction 1; cbn [map fold_right]; lia.
Qed.

Lemma ValidItem_Permutation (l1 l2 : list RequestArg) :
  Permutation l1 l2 -> Forall ValidItem l1 -> Forall ValidItem l2.
Proof.
  intros Hperm. rewrite !List.Forall_forall. intros Hall a Ha.
  apply Hall. apply Permutation_in with l2; [now apply Permutation_sym|exact Ha].
Qed.

(** Every valid item counts for at least one ticket. *)
Lemma length_le_total_quantity (requests : list RequestArg) :
  Forall ValidItem requests -> Z.of_nat (length requests) <= total_quantity requests.
Proof.
  unfold total_quantity, aggregated.
  induction 1 as [|a rest Ha _ IH]; [cbn; lia|].
  destruct Ha as [[c n] Hn]. cbn [length map fold_right quantity_for] in *.
  rewrite Nat2Z.inj_succ. destruct c; cbn in *; lia.
Qed.

Lemma first_item_error_app_bad (pre post : list RequestArg) (bad : RequestArg) :
  Forall ValidItem pre -> ~ ValidItem bad ->
  first_item_error (pre ++ bad :: post) =
  Some match bad with
       | Foreign _ => msg_InvalidRequest_instance
       | Ticket _ => msg_InvalidRequest_quantity
       end.
Proof.
  intros Hpre Hbad. induction Hpre as [|a pre Ha _ IH].
  - destruct bad as [r|v]; cbn [app first_item_error]; [|reflexivity].
    destruct (Z.leb_spec (getNoOfTickets r) 0); [reflexivity|].
    exfalso. apply Hbad. now constructor.
  - destruct Ha as [r Hr]. cbn [app first_item_error].
    destruct (Z.leb_spec (getNoOfTickets r) 0); [lia|exact IH].
Qed.

(** Past the item checks, the verdict looks at the aggregate counts only. *)
Lemma first_violation_aggregates (max : Z) (ratio : bool) (accountId : JsValue)
    (l1 l2 : list RequestArg) :
  l1 <> [] -> l2 <> [] -> Forall ValidItem l1 -> Forall ValidItem l2 ->
  (forall c, aggregated c l1 = aggregated c l2) ->
  first_violation max ratio accountId l1 = first_violation max ratio accountId l2.
Proof.
  intros H1 H2 Hv1 Hv2 Hagg. unfold first_violation, total_quantity.
  rewrite (first_item_error_valid _ Hv1), (first_item_error_valid _ Hv2).
  rewrite !Hagg.
  destruct l1; [congruence|]. destruct l2; [congruence|]. reflexivity.
Qed.

Lemma calls_of_aggregates (prices : ByTicketType) (accountId : JsValue)
    (l1 l2 : list RequestArg) :
  (forall c, aggregated c l1 = aggregated c l2) ->
  calls_of prices accountId l1 = calls_of prices accountId l2.
Proof.
  intros Hagg. unfold calls_of, spec_price, spec_seats.
  cbn [map fold_right]. now rewrite !Hagg.
Qed.

Lemma purchaseTickets_aggregates (this : Configured.TicketService)
    (accountId : JsValue) (l1 l2 : list RequestArg) (w : World) :
  l1 <> [] -> l2 <> [] -> Forall ValidItem l1 -> Forall ValidItem l2 ->
  (forall c, aggregated c l1 = aggregated c l2) ->
  Configured.purchaseTickets this accountId l1 w
  = Configured.purchaseTickets this accountId l2 w.
Proof.
  intros H1 H2 Hv1 Hv2 Hagg. rewrite !purchaseTickets_first_violation.
  rewrite (first_violation_aggregates _ _ _ l1 l2) by assumption.
  now rewrite (calls_of_aggregates _ _ l1 l2).
Qed.

End Aggregates.

(** X1: when the limit and the total quantity are safe integers,
    [purchaseTickets] returns normally exactly when the account is a
    positive integer, there is at least one request, every item is a ticket
    request of positive quantity, the total does not exceed the maximum, there
    is at least one Adult and, with the ratio rule on, no more Infants than
    Adults. *)
Theorem X1_accepted_iff (this : Configured.TicketService)
    (accountId : JsValue) (requests : list RequestArg) (w : World)
    (Hlimit : SafeLimit this)
    (Hquantity : total_quantity requests <= MAX_SAFE_INTEGER) :
  (exists w', Configured.purchaseTickets this accountId requests w = (Normal tt, w'))
  <->
  (PositiveInteger accountId /\ requests <> [] /\ Forall ValidItem requests
   /\ total_quantity requests <= Configured.MAX_TICKETS this
   /\ 1 <= aggregated ADULT_T requests
   /\ (Configured.ENFORCE_INFANT_ADULT_RATIO this = true ->
       aggregated INFANT_T requests <= aggregated ADULT_T requests)).
Proof.
  split.
  - intros [w' H]. now apply purchaseTickets_normal_inv with w w'.
  - intros (Hacc & Hne & Hitems & Hle & Hadult & Hratio).
    rewrite purchaseTickets_first_violation.
    rewrite first_violation_valid; try assumption; [eauto|]. intros _. lia.
Qed.

Lemma X1_accepted_iff_witness :
  exists w',
    Configured.purchaseTickets (Configured.new default_config) (account 1)
      [request ADULT_T 1; request CHILD_T 2] [] = (Normal tt, w').
Proof.
  apply (X1_accepted_iff (Configured.new default_config) (account 1)
           [request ADULT_T 1; request CHILD_T 2] []).
  - unfold SafeLimit, safe_integer, MAX_SAFE_INTEGER. cbn. lia.
  - discriminate.
  - split; [apply (PositiveInteger_intro _ 1); reflexivity|].
    split; [discriminate|]. split; [repeat constructor|].
    split; [discriminate|]. split; [discriminate|]. intros _. discriminate.
Defined.

(** X2: with a valid account and no request at all the purchase fails with
    the message that at least one request must be provided, in both versions,
    and no collaborator is called. *)
Theorem X2_no_requests (this : Configured.TicketService)
    (accountId : JsValue) (w : World) (Haccount : PositiveInteger accountId) :
  Configured.purchaseTickets this accountId [] w = (Throw NoRequests, w)
  /\ Hardcoded.purchaseTickets accountId [] w = (Throw NoRequests, w).
Proof.
  assert (Hgen : forall svc,
    Configured.purchaseTickets svc accountId [] w = (Throw NoRequests, w)).
  { intros svc. rewrite purchaseTickets_first_violation. unfold first_violation.
    apply positive_integerb_spec in Haccount. now rewrite Haccount. }
  split; [apply Hgen|]. rewrite purchaseTickets_same. apply Hgen.
Qed.

Lemma X2_no_requests_witness :
  Configured.purchaseTickets (Configured.new default_config) (account 1) [] []
  = (Throw NoRequests, [])
  /\ Hardcoded.purchaseTickets (account 1) [] [] = (Throw NoRequests, []).
Proof.
  apply (X2_no_requests (Configured.new default_config) (account 1) []).
  apply (PositiveInteger_intro _ 1). reflexivity.
Defined.

(** X3: with a valid account, the first argument that is not a ticket request
    of positive quantity decides the failure, whatever follows it and whatever
    the business rules would say: a foreign argument gives the message about
    an invalid ticket type request, a request of zero or negative quantity the
    message about the number of tickets; no collaborator is called. *)
Theorem X3_invalid_item (this : Configured.TicketService)
    (accountId : JsValue) (pre post : list RequestArg) (bad : RequestArg)
    (w : World)
    (Haccount : PositiveInteger accountId)
    (Hpre : Forall ValidItem pre)
    (Hbad : ~ ValidItem bad) :
  let e := mkInvalidPurchaseException
             match bad with
             | Foreign _ => "Invalid ticket type request"
             | Ticket _ => "Number of tickets must be greater than zero"
             end in
  Configured.purchaseTickets this accountId (pre ++ bad :: post) w = (Throw e, w)
  /\ Hardcoded.purchaseTickets accountId (pre ++ bad :: post) w = (Throw e, w).
Proof.
  intros e.
  assert (Hgen : forall svc,
    Configured.purchaseTickets svc accountId (pre ++ bad :: post) w = (Throw e, w)).
  { intros svc. rewrite purchaseTickets_first_violation. unfold first_violation.
    apply positive_integerb_spec in Haccount. rewrite Haccount. cbn [negb].
    rewrite (first_item_error_app_bad pre post bad Hpre Hbad).
    destruct (pre ++ bad :: post) eqn:Happ.
    - now destruct pre.
    - subst e. now destruct bad. }
  split; [apply Hgen|]. rewrite purchaseTickets_same. apply Hgen.
Qed.

Lemma X3_invalid_item_witness :
  Hardcoded.purchaseTickets (account 1)
    ([request ADULT_T 1] ++ request CHILD_T 0 :: [Foreign JsObject; request ADULT_T 30]) []
  = (Throw (mkInvalidPurchaseException "Number of tickets must be greater than zero"), []).
Proof.
  refine (proj2 (X3_invalid_item (Configured.new default_config) (account 1)
                   [request ADULT_T 1] [Foreign JsObject; request ADULT_T 30]
                   (request CHILD_T 0) [] _ _ _)).
  - apply (PositiveInteger_intro _ 1). reflexivity.
  - repeat constructor.
  - intros H. inversion H as [r Hr Heq]. subst. cbn in Hr. discriminate Hr.
Defined.

(** X4: the outcome of a purchase of valid items depends on the aggregate
    counts only: two non-empty request lists of valid items with the same
    count in every category, the total a safe integer, have the same outcome
    (the same exception, or the same two calls), so a request may be split or
    merged freely. *)
Theorem X4_aggregates_decide (this : Configured.TicketService)
    (accountId : JsValue) (l1 l2 : list RequestArg) (w : World)
    (Hne1 : l1 <> []) (Hne2 : l2 <> [])
    (Hitems1 : Forall ValidItem l1) (Hitems2 : Forall ValidItem l2)
    (Hsame : forall c, aggregated c l1 = aggregated c l2)
    (Hquantity : total_quantity l1 <= MAX_SAFE_INTEGER) :
  Configured.purchaseTickets this accountId l1 w
  = Configured.purchaseTickets this accountId l2 w
  /\ Hardcoded.purchaseTickets accountId l1 w
     = Hardcoded.purchaseTickets accountId l2 w.
Proof.
  split; [|rewrite !purchaseTickets_same];
    now apply purchaseTickets_aggregates.
Qed.

Lemma X4_aggregates_decide_witness :
  Hardcoded.purchaseTickets (account 30)
    [request ADULT_T 2; request ADULT_T 3; request CHILD_T 1] []
  = Hardcoded.purchaseTickets (account 30)
      [request CHILD_T 1; request ADULT_T 5] [].
Proof.
  refine (proj2 (X4_aggregates_decide (Configured.new default_config) (account 30)
                   [request ADULT_T 2; request ADULT_T 3; request CHILD_T 1]
                   [request CHILD_T 1; request ADULT_T 5] [] _ _ _ _ _ _)).
  - discriminate.
  - discriminate.
  - repeat constructor.
  - repeat constructor.
  - intros []; reflexivity.
  - discriminate.
Defined.

(** X5: the order of the requests does not matter when every item is valid
    and the total quantity is a safe integer: a purchase and the same purchase
    with its requests reordered have the same outcome. *)
Theorem X5_order_irrelevant (this : Configured.TicketService)
    (accountId : JsValue) (l1 l2 : list RequestArg) (w : World)
    (Hperm : Permutation l1 l2)
    (Hitems : Forall ValidItem l1)
    (Hquantity : total_quantity l1 <= MAX_SAFE_INTEGER) :
  Configured.purchaseTickets this accountId l1 w
  = Configured.purchaseTickets this accountId l2 w
  /\ Hardcoded.purchaseTickets accountId l1 w
     = Hardcoded.purchaseTickets accountId l2 w.
Proof.
  assert (Hgen : forall svc,
    Configured.purchaseTickets svc accountId l1 w
    = Configured.purchaseTickets svc accountId l2 w).
  { intros svc. destruct l1 as [|a rest].
    - apply Permutation_nil in Hperm. now subst.
    - apply purchaseTickets_aggregates; try assumption.
      + discriminate.
      + intros ->. apply Permutation_sym, Permutation_nil in Hperm. discriminate.
      + now apply ValidItem_Permutation with (a :: rest).
      + intros c. now apply aggregated_Permutation. }
  split; [apply Hgen|]. rewrite !purchaseTickets_same. apply Hgen.
Qed.

Lemma X5_order_irrelevant_witness :
  Hardcoded.purchaseTickets (account 2)
    [request INFANT_T 1; request ADULT_T 2] []
  = Hardcoded.purchaseTickets (account 2)
      [request ADULT_T 2; request INFANT_T 1] [].
Proof.
  refine (proj2 (X5_order_irrelevant (Configured.new default_config) (account 2)
                   [request INFANT_T 1; request ADULT_T 2]
                   [request ADULT_T 2; request INFANT_T 1] [] _ _ _)).
  - apply perm_swap.
  - repeat constructor.
  - discriminate.
Defined.

(** X6: two accepted purchases of the same account can be made as one: when
    the two request lists together stay within the maximum, and the limit,
    the prices and the amount of the merged purchase are safe integers, the
    merged purchase is accepted, pays the sum of the two amounts and reserves
    the sum of the two seat counts. *)
Theorem X6_merge (this : Configured.TicketService)
    (accountId : JsValue) (l1 l2 : list RequestArg) (w : World)
    (amount1 seats1 amount2 seats2 : Z)
    (H1 : Configured.purchaseTickets this accountId l1 w
          = (Normal tt, w ++ [makePayment accountId amount1;
                              reserveSeat accountId seats1]))
    (H2 : Configured.purchaseTickets this accountId l2 w
          = (Normal tt, w ++ [makePayment accountId amount2;
                              reserveSeat accountId seats2]))
    (Hfit : total_quantity (l1 ++ l2) <= Configured.MAX_TICKETS this)
    (Hlimit : SafeLimit this)
    (Hprices : SafePrices this)
    (Hamount : spec_price (Configured.TICKET_PRICES this) (l1 ++ l2)
               <= MAX_SAFE_INTEGER) :
  Configured.purchaseTickets this accountId (l1 ++ l2) w
  = (Normal tt, w ++ [makePayment accountId (amount1 + amount2);
                      reserveSeat accountId (seats1 + seats2)]).
Proof.
  pose proof (purchaseTickets_normal_inv _ _ _ _ _ H1)
    as (Hacc & Hne1 & Hv1 & _ & Hadult1 & Hratio1).
  pose proof (purchaseTickets_normal_inv _ _ _ _ _ H2)
    as (_ & _ & Hv2 & _ & Hadult2 & Hratio2).
  rewrite purchaseTickets_first_violation in H1, H2.
  destruct (first_violation _ _ accountId l1); [discriminate|].
  destruct (first_violation _ _ accountId l2); [discriminate|].
  injection H1 as H1. injection H2 as H2.
  apply app_inv_head in H1, H2.
  injection H1 as Ha1 Hs1. injection H2 as Ha2 Hs2. subst.
  rewrite purchaseTickets_first_violation, first_violation_valid.
  - unfold calls_of, spec_price, spec_seats. cbn [map fold_right get].
    rewrite !aggregated_app.
    do 3 f_equal; [f_equal; lia | do 2 f_equal; lia].
  - assumption.
  - destruct l1; [congruence|discriminate].
  - apply Forall_app; now split.
  - assumption.
  - rewrite !aggregated_app. lia.
  - intros Hr. rewrite !aggregated_app.
    specialize (Hratio1 Hr). specialize (Hratio2 Hr). lia.
Qed.

Lemma X6_merge_witness :
  Configured.purchaseTickets (Configured.new default_config) (account 9)
    ([request ADULT_T 2; request INFANT_T 1] ++ [request ADULT_T 1; request CHILD_T 4]) []
  = (Normal tt, [] ++ [makePayment (account 9) (50 + 85);
                       reserveSeat (account 9) (2 + 5)]).
Proof.
  apply (X6_merge (Configured.new default_config) (account 9)
           [request ADULT_T 2; request INFANT_T 1]
           [request ADULT_T 1; request CHILD_T 4] [] 50 2 85 5).
  - reflexivity.
  - reflexivity.
  - discriminate.
  - unfold SafeLimit, safe_integer, MAX_SAFE_INTEGER. cbn. lia.
  - unfold SafePrices, MAX_SAFE_INTEGER. cbn. lia.
  - discriminate.
Defined.

(** X7: an accepted purchase is bounded.  With the hard-coded constants it
    holds at most 25 requests, reserves at most 25 seats, charges at most 625
    and carries at most 12 Infants; in the configured version the number of
    requests and the number of seats stay within the configured maximum. *)
Theorem X7_bounds (accountId : JsValue) (requests : list RequestArg)
    (w w' : World) :
  (Hardcoded.purchaseTickets accountId requests w = (Normal tt, w') ->
   exists amount seats,
     w' = w ++ [makePayment accountId amount; reserveSeat accountId seats]
     /\ seats <= 25 /\ amount <= 625
     /\ aggregated INFANT_T requests <= 12
     /\ (length requests <= 25)%nat)
  /\
  (forall this,
     Configured.purchaseTickets this accountId requests w = (Normal tt, w') ->
     exists amount seats,
       w' = w ++ [makePayment accountId amount; reserveSeat accountId seats]
       /\ seats <= Configured.MAX_TICKETS this
       /\ Z.of_nat (length requests) <= Configured.MAX_TICKETS this).
Proof.
  split.
  - rewrite purchaseTickets_same. intros H.
    pose proof (purchaseTickets_normal_inv _ _ _ _ _ H)
      as (_ & _ & Hv & Hle & Hadult & Hratio).
    specialize (Hratio eq_refl).
    pose proof (length_le_total_quantity _ Hv) as Hlen.
    pose proof (aggregated_nonneg INFANT_T _ Hv).
    pose proof (aggregated_nonneg CHILD_T _ Hv).
    rewrite purchaseTickets_first_violation in H.
    destruct (first_violation _ _ _ _); [discriminate|].
    injection H as <-. eexists _, _. split; [reflexivity|].
    unfold spec_price, spec_seats, total_quantity in *.
    cbn [map fold_right get hardcoded_service Configured.TICKET_PRICES
         Configured.MAX_TICKETS Hardcoded.TICKET_PRICES Hardcoded.MAX_TICKETS
         INFANT CHILD ADULT] in *.
    unfold Hardcoded.MAX_TICKETS in Hle.
    repeat split; lia.
  - intros this H.
    pose proof (purchaseTickets_normal_inv _ _ _ _ _ H)
      as (_ & _ & Hv & Hle & Hadult & _).
    pose proof (length_le_total_quantity _ Hv) as Hlen.
    pose proof (aggregated_nonneg INFANT_T _ Hv).
    rewrite purchaseTickets_first_violation in H.
    destruct (first_violation _ _ _ _); [discriminate|].
    injection H as <-. eexists _, _. split; [reflexivity|].
    unfold spec_seats, total_quantity in *. split; lia.
Qed.

Lemma X7_bounds_witness :
  let requests := [request ADULT_T 25] in
  let w' := [makePayment (account 3) 625; reserveSeat (account 3) 25] in
  Hardcoded.purchaseTickets (account 3) requests [] = (Normal tt, w')
  /\ aggregated INFANT_T requests <= 12.
Proof.
  intros requests w'. split; [reflexivity|].
  destruct (X7_bounds (account 3) requests [] w') as [Hhardcoded Hconfigured].
  destruct (Hhardcoded eq_refl) as (amount & seats & _ & _ & _ & Hinfants & _).
  pose proof (Hconfigured (Configured.new default_config) eq_refl) as _.
  exact Hinfants.
Defined.

(** X8: relaxing the configuration never rejects what was accepted: with the
    same prices, a maximum at least as large and the ratio rule not switched
    on where it was off, an accepted purchase stays accepted and makes the
    same two calls. *)
Theorem X8_relaxing (this this' : Configured.TicketService)
    (accountId : JsValue) (requests : list RequestArg) (w w' : World)
    (Hprices : Configured.TICKET_PRICES this' = Configured.TICKET_PRICES this)
    (Hmax : Configured.MAX_TICKETS this <= Configured.MAX_TICKETS this')
    (Hratio : Configured.ENFORCE_INFANT_ADULT_RATIO this' = true ->
              Configured.ENFORCE_INFANT_ADULT_RATIO this = true)
    (Haccepted : Configured.purchaseTickets this accountId requests w
                 = (Normal tt, w')) :
  Configured.purchaseTickets this' accountId requests w = (Normal tt, w').
Proof.
  pose proof (purchaseTickets_normal_inv _ _ _ _ _ Haccepted)
    as (Hacc & Hne & Hv & Hle & Hadult & Hr).
  rewrite purchaseTickets_first_violation in Haccepted.
  destruct (first_violation _ _ _ _); [discriminate|].
  injection Haccepted as <-.
  rewrite purchaseTickets_first_violation, first_violation_valid, Hprices;
    auto; lia.
Qed.

Lemma X8_relaxing_witness :
  Configured.purchaseTickets
    {| Configured.TICKET_PRICES := ticketPrices default_config;
       Configured.MAX_TICKETS := 40;
       Configured.ENFORCE_INFANT_ADULT_RATIO := false |}
    (account 1) [request ADULT_T 20; request CHILD_T 5] []
  = (Normal tt, [makePayment (account 1) 575; reserveSeat (account 1) 25]).
Proof.
  apply (X8_relaxing (Configured.new default_config)).
  - reflexivity.
  - cbn. lia.
  - intros _. reflexivity.
  - reflexivity.
Defined.

Section RatioOff.

Variable config : Config.
Hypothesis Hmax : maxTickets config = 25.
Hypothesis Hprices :
  ticketPrices config = {| INFANT := 0; CHILD := 15; ADULT := 25 |}.
Hypothesis Hratio : enforceInfantAdultRatio config = false.

(** With the ratio rule off the two versions run the same checks up to the
    ratio rule, which only the hard-coded one applies. *)
Lemma ratio_off_same_or_ratio (accountId : JsValue)
    (requests : list RequestArg) (w : World) :
  Hardcoded.purchaseTickets accountId requests w
  = Configured.purchaseTickets (Configured.new config) accountId requests w
  \/ (aggregated ADULT_T requests < aggregated INFANT_T requests
      /\ Hardcoded.purchaseTickets accountId requests w
         = (Throw InfantRatioExceeded, w)
      /\ Configured.purchaseTickets (Configured.new config) accountId requests w
         = (Normal tt,
            w ++ [makePayment accountId (spec_price (ticketPrices config) requests);
                  reserveSeat accountId (spec_seats requests)])).
Proof.
  rewrite purchaseTickets_same, !purchaseTickets_first_violation.
  unfold Configured.new, hardcoded_service, first_violation, calls_of.
  cbn [Configured.MAX_TICKETS Configured.ENFORCE_INFANT_ADULT_RATIO
       Configured.TICKET_PRICES].
  rewrite Hmax, Hprices, Hratio. unfold Hardcoded.MAX_TICKETS, Hardcoded.TICKET_PRICES.
  destruct (negb (positive_integerb accountId)); [now left|].
  destruct requests as [|a rest]; [now left|].
  destruct (first_item_error (a :: rest)); [now left|].
  destruct (total_quantity (a :: rest) >? 25); [now left|].
  destruct (((aggregated CHILD_T (a :: rest) >? 0)
             || (aggregated INFANT_T (a :: rest) >? 0))
            && (aggregated ADULT_T (a :: rest) =? 0)); [now left|].
  cbn [andb].
  destruct (Z.gtb_spec (aggregated INFANT_T (a :: rest))
              (aggregated ADULT_T (a :: rest))); [right|now left].
  repeat split. assumption.
Qed.

End RatioOff.

(** X9: with the default limit and prices but the ratio rule switched off,
    the configured version differs from the hard-coded one exactly on the
    purchases that pass every earlier check (a valid account, at least one
    request, only valid items, a total of at most 25, at least one Adult) and
    have more Infants than Adults: on these the hard-coded version fails with
    the ratio message and calls nothing while the configured one accepts, pays
    and reserves; on every other input the two have the same outcome. *)
Theorem X9_ratio_off (config : Config) (accountId : JsValue)
    (requests : list RequestArg) (w : World)
    (Hmax : maxTickets config = 25)
    (Hprices : ticketPrices config = {| INFANT := 0; CHILD := 15; ADULT := 25 |})
    (Hratio : enforceInfantAdultRatio config = false) :
  let more_infants :=
    PositiveInteger accountId /\ requests <> [] /\ Forall ValidItem requests
    /\ total_quantity requests <= 25
    /\ 1 <= aggregated ADULT_T requests
    /\ aggregated ADULT_T requests < aggregated INFANT_T requests in
  (more_infants ->
   Hardcoded.purchaseTickets accountId requests w
   = (Throw InfantRatioExceeded, w)
   /\ Configured.purchaseTickets (Configured.new config) accountId requests w
      = (Normal tt,
         w ++ [makePayment accountId
                 (aggregated CHILD_T requests * 15
                  + aggregated ADULT_T requests * 25);
               reserveSeat accountId (spec_seats requests)]))
  /\
  (~ more_infants ->
   Hardcoded.purchaseTickets accountId requests w
   = Configured.purchaseTickets (Configured.new config) accountId requests w).
Proof.
  intros more_infants. split.
  - intros (Hacc & Hne & Hitems & Hle & Hadult & Hmore). split.
    + rewrite purchaseTickets_same, purchaseTickets_first_violation.
      now rewrite first_violation_ratio.
    + rewrite purchaseTickets_first_violation.
      cbn [Configured.new Configured.MAX_TICKETS
           Configured.ENFORCE_INFANT_ADULT_RATIO Configured.TICKET_PRICES].
      rewrite Hmax, Hprices, Hratio.
      rewrite first_violation_valid; try assumption; try lia; try discriminate.
      unfold calls_of, spec_price. cbn [map fold_right get INFANT CHILD ADULT].
      do 4 f_equal. lia.
  - intros Hnot.
    destruct (ratio_off_same_or_ratio config Hmax Hprices Hratio
                accountId requests w) as [Hsame | (Hmore & _ & Hconfigured)];
      [exact Hsame|].
    exfalso. apply Hnot.
    pose proof (purchaseTickets_normal_inv _ _ _ _ _ Hconfigured)
      as (Hacc & Hne & Hitems & Hle & Hadult & _).
    cbn [Configured.new Configured.MAX_TICKETS] in Hle. rewrite Hmax in Hle.
    unfold more_infants. tauto.
Qed.

Lemma X9_ratio_off_witness :
  let config := {| maxTickets := 25;
                   ticketPrices := {| INFANT := 0; CHILD := 15; ADULT := 25 |};
                   enforceInfantAdultRatio := false;
                   nodeEnv := "test" |} in
  (Hardcoded.purchaseTickets (account 1) [request ADULT_T 1; request INFANT_T 3] []
   = (Throw InfantRatioExceeded, [])
   /\ Configured.purchaseTickets (Configured.new config) (account 1)
        [request ADULT_T 1; request INFANT_T 3] []
      = (Normal tt, [makePayment (account 1) 25; reserveSeat (account 1) 1]))
  /\ Hardcoded.purchaseTickets (account 1) [request INFANT_T 1] []
     = Configured.purchaseTickets (Configured.new config) (account 1)
         [request INFANT_T 1] [].
Proof.
  intros config. split.
  - apply (proj1 (X9_ratio_off config (account 1)
                    [request ADULT_T 1; request INFANT_T 3] []
                    eq_refl eq_refl eq_refl)).
    split; [apply (PositiveInteger_intro _ 1); reflexivity|].
    split; [discriminate|]. split; [repeat constructor|].
    split; [discriminate|]. split; [discriminate|]. reflexivity.
  - apply (proj2 (X9_ratio_off config (account 1) [request INFANT_T 1] []
                    eq_refl eq_refl eq_refl)).
    intros (_ & _ & _ & _ & Hadult & _). apply Hadult. reflexivity.
Defined.

(** ** Properties of [Config] *)

Section Environment.

Lemma getEnvAsInt_setting (env : gmap string string) (key : string) (d : Z) :
  ConfigJs.getEnvAsInt env key d =
  match setting env key with
  | None => Normal d
  | Some value =>
      match parseInt10 value with
      | None =>
          Throw (String.append "Environment variable "
                  (String.append key
                    (String.append " must be a valid integer, got: " value)))
      | Some parsed => Normal parsed
      end
  end.
Proof.
  unfold ConfigJs.getEnvAsInt, setting.
  destruct (env !! key) as [value|]; [|reflexivity].
  destruct (String.eqb value ""); reflexivity.
Qed.

Lemma getEnvAsBool_setting (env : gmap string string) (key : string) (d : bool) :
  ConfigJs.getEnvAsBool env key d =
  match setting env key with
  | None => d
  | Some value => String.eqb (toLowerCase value) "true" || String.eqb value "1"
  end.
Proof.
  unfold ConfigJs.getEnvAsBool, setting.
  destruct (env !! key) as [value|]; [|reflexivity].
  destruct (String.eqb value ""); reflexivity.
Qed.

(** The constructor looks at the settings of its six variables only. *)
Lemma new_settings (env env' : gmap string string) :
  (forall key, In key config_variables -> setting env key = setting env' key) ->
  ConfigJs.new env = ConfigJs.new env'.
Proof.
  intros Hsame. unfold ConfigJs.new.
  rewrite !getEnvAsInt_setting, !getEnvAsBool_setting.
  assert (Hnode :
    match env !! "NODE_ENV" with
    | Some v => if String.eqb v "" then "development" else v
    | None => "development"
    end =
    match env' !! "NODE_ENV" with
    | Some v => if String.eqb v "" then "development" else v
    | None => "development"
    end).
  { pose proof (Hsame "NODE_ENV" ltac:(cbn; tauto)) as H. unfold setting in H.
    destruct (env !! "NODE_ENV") as [v|], (env' !! "NODE_ENV") as [v'|];
      try destruct (String.eqb v ""); try destruct (String.eqb v' "");
      congruence. }
  rewrite Hnode.
  rewrite (Hsame "MAX_TICKETS"), (Hsame "TICKET_PRICE_INFANT"),
    (Hsame "TICKET_PRICE_CHILD"), (Hsame "TICKET_PRICE_ADULT"),
    (Hsame "ENFORCE_INFANT_ADULT_RATIO"); cbn; tauto.
Qed.

End Environment.

(** X10: [#validate] reports a bad Adult price under two messages: the
    message that the Adult price must be greater than zero is thrown exactly
    when maxTickets is positive, no price is negative and the Adult price is
    0; a negative Adult price (with a positive maxTickets) is reported as a
    negative ticket price. *)
Theorem X10_adult_price_messages (this : Config) :
  (ConfigJs.validate this = Throw "Adult ticket price must be greater than zero"
   <-> 0 < maxTickets this /\ 0 <= INFANT (ticketPrices this)
       /\ 0 <= CHILD (ticketPrices this) /\ ADULT (ticketPrices this) = 0)
  /\ (0 < maxTickets this -> ADULT (ticketPrices this) < 0 ->
      ConfigJs.validate this = Throw "Ticket prices must be non-negative").
Proof.
  unfold ConfigJs.validate.
  destruct (Z.leb_spec (maxTickets this) 0);
    [split; [split; [discriminate|lia]|lia]|].
  destruct (Z.ltb_spec (INFANT (ticketPrices this)) 0);
    [split; [split; [discriminate|lia]|reflexivity]|].
  destruct (Z.ltb_spec (CHILD (ticketPrices this)) 0);
    [split; [split; [discriminate|lia]|reflexivity]|].
  destruct (Z.ltb_spec (ADULT (ticketPrices this)) 0);
    [split; [split; [discriminate|lia]|reflexivity]|].
  cbn [orb].
  destruct (Z.leb_spec (ADULT (ticketPrices this)) 0);
    (split; [split; [try discriminate; intros _; lia | try reflexivity; lia] | lia]).
Qed.

Lemma X10_adult_price_messages_witness :
  ConfigJs.new (<["TICKET_PRICE_ADULT" := "-5"]> ∅)
  = Throw "Ticket prices must be non-negative"
  /\ ConfigJs.validate
       {| maxTickets := 25;
          ticketPrices := {| INFANT := 0; CHILD := 15; ADULT := -5 |};
          enforceInfantAdultRatio := true; nodeEnv := "development" |}
     = Throw "Ticket prices must be non-negative"
  /\ ConfigJs.validate
       {| maxTickets := 25;
          ticketPrices := {| INFANT := 0; CHILD := 15; ADULT := 0 |};
          enforceInfantAdultRatio := true; nodeEnv := "development" |}
     = Throw "Adult ticket price must be greater than zero".
Proof.
  split; [reflexivity|]. split.
  - apply (proj2 (X10_adult_price_messages _)); reflexivity.
  - apply (proj1 (X10_adult_price_messages _)). cbn. lia.
Defined.

(** X11: a variable set to the empty string counts as not set: the
    constructor returns the same (configuration or error) as when the
    variable is removed from the environment. *)
Theorem X11_empty_is_unset (env : gmap string string) (key : string) :
  ConfigJs.new (<[key := ""]> env) = ConfigJs.new (delete key env).
Proof.
  apply new_settings. intros k _. unfold setting.
  destruct (decide (key = k)) as [->|Hne].
  - now rewrite lookup_insert_eq, lookup_delete_eq.
  - now rewrite lookup_insert_ne, lookup_delete_ne.
Qed.

(** X12: a variable that is none of the six that [Config] reads has no
    effect on the constructor. *)
Theorem X12_other_variables (env : gmap string string) (key value : string)
    (Hother : ~ In key config_variables) :
  ConfigJs.new (<[key := value]> env) = ConfigJs.new env.
Proof.
  apply new_settings. intros k Hk. unfold setting.
  rewrite lookup_insert_ne; [reflexivity|]. intros ->. contradiction.
Qed.

Lemma X12_other_variables_witness :
  ConfigJs.new (<["PATH" := "/usr/bin"]> (<["MAX_TICKETS" := "30"]> ∅))
  = ConfigJs.new (<["MAX_TICKETS" := "30"]> ∅).
Proof.
  apply X12_other_variables. cbn. intros H.
  repeat (destruct H as [H|H]; [discriminate H|]). exact H.
Defined.

(** X13: a non-empty ASCII value without a leading integer (one for which
    [parseInt] gives NaN) in any of the four integer variables makes the
    constructor throw, whatever the other variables hold. *)
Theorem X13_not_an_integer (env : gmap string string) (key value : string)
    (Hkey : In key integer_variables)
    (Hset : env !! key = Some value)
    (Hnonempty : value <> "")
    (Hascii : ascii_only value = true)
    (Hnan : parseInt10 value = None) :
  exists msg, ConfigJs.new env = Throw msg.
Proof.
  assert (Hthrow : exists msg, forall d, ConfigJs.getEnvAsInt env key d = Throw msg).
  { eexists. intros d. unfold ConfigJs.getEnvAsInt. rewrite Hset.
    destruct (String.eqb_spec value ""); [contradiction|].
    rewrite Hnan. reflexivity. }
  destruct Hthrow as [msg Hthrow]. unfold ConfigJs.new.
  cbn in Hkey. destruct Hkey as [<-|[<-|[<-|[<-|[]]]]].
  - rewrite Hthrow. now exists msg.
  - destruct (ConfigJs.getEnvAsInt env "MAX_TICKETS" 25) as [?|e];
      cbn [ConfigJs.andThen]; [|now exists e].
    rewrite Hthrow. now exists msg.
  - destruct (ConfigJs.getEnvAsInt env "MAX_TICKETS" 25) as [?|e];
      cbn [ConfigJs.andThen]; [|now exists e].
    destruct (ConfigJs.getEnvAsInt env "TICKET_PRICE_INFANT" 0) as [?|e];
      cbn [ConfigJs.andThen]; [|now exists e].
    rewrite Hthrow. now exists msg.
  - destruct (ConfigJs.getEnvAsInt env "MAX_TICKETS" 25) as [?|e];
      cbn [ConfigJs.andThen]; [|now exists e].
    destruct (ConfigJs.getEnvAsInt env "TICKET_PRICE_INFANT" 0) as [?|e];
      cbn [ConfigJs.andThen]; [|now exists e].
    destruct (ConfigJs.getEnvAsInt env "TICKET_PRICE_CHILD" 15) as [?|e];
      cbn [ConfigJs.andThen]; [|now exists e].
    rewrite Hthrow. now exists msg.
Qed.

Lemma X13_not_an_integer_witness :
  exists msg,
    ConfigJs.new (<["TICKET_PRICE_CHILD" := "free"]> (<["MAX_TICKETS" := "30"]> ∅))
    = Throw msg.
Proof.
  apply (X13_not_an_integer _ "TICKET_PRICE_CHILD" "free").
  - cbn. tauto.
  - reflexivity.
  - discriminate.
  - reflexivity.
  - reflexivity.
Defined.

Section Decimal.

Lemma readDigits_rest (a : Z) (rest : string) :
  starts_with_digit rest = false -> readDigits (Some a) rest = Some a.
Proof.
  destruct rest as [|c rest]; [reflexivity|]. cbn [starts_with_digit readDigits].
  destruct (digit_of c); [discriminate|reflexivity].
Qed.

Lemma readDigits_uint (d : Decimal.uint) :
  forall (a : Z) (rest : string),
    starts_with_digit rest = false ->
    readDigits (Some a) (String.append (NilEmpty.string_of_uint d) rest)
    = Some (uint_value d a).
Proof.
  induction d as [|d IH|d IH|d IH|d IH|d IH|d IH|d IH|d IH|d IH|d IH];
    intros a rest Hrest;
    cbn [NilEmpty.string_of_uint String.append uint_value];
    [now apply readDigits_rest|..];
    (etransitivity; [|apply (IH _ rest Hrest)]); reflexivity.
Qed.

Lemma readDigits_uint_first (d : Decimal.uint) (rest : string) :
  d <> Decimal.Nil -> starts_with_digit rest = false ->
  readDigits None (String.append (NilEmpty.string_of_uint d) rest)
  = Some (uint_value d 0).
Proof.
  intros Hd Hrest. destruct d; [congruence|..];
    cbn [NilEmpty.string_of_uint String.append uint_value];
    (etransitivity; [|apply (readDigits_uint _ _ rest Hrest)]); reflexivity.
Qed.

Lemma uint_value_pos (d : Decimal.uint) :
  forall p : positive, uint_value d (Z.pos p) = Z.pos (Pos.of_uint_acc d p).
Proof.
  induction d as [|d IH|d IH|d IH|d IH|d IH|d IH|d IH|d IH|d IH|d IH];
    intros p; cbn [uint_value Pos.of_uint_acc]; [reflexivity|..];
    rewrite <- IH; f_equal; lia.
Qed.

Lemma uint_value_zero (d : Decimal.uint) :
  uint_value d 0 = Z.of_N (Pos.of_uint d).
Proof.
  induction d as [|d IH|d IH|d IH|d IH|d IH|d IH|d IH|d IH|d IH|d IH];
    cbn [uint_value Pos.of_uint]; [reflexivity|exact IH|..];
    (etransitivity; [apply uint_value_pos|reflexivity]).
Qed.

Lemma uint_value_to_uint (p : positive) :
  uint_value (Pos.to_uint p) 0 = Z.pos p.
Proof.
  now rewrite uint_value_zero, DecimalPos.Unsigned.of_to.
Qed.

Lemma string_of_uint_head (d : Decimal.uint) (rest : string) :
  d <> Decimal.Nil ->
  exists c tail,
    String.append (NilEmpty.string_of_uint d) rest = String c tail
    /\ isWhiteSpace c = false /\ c <> "-"%char /\ c <> "+"%char.
Proof.
  intros Hd. destruct d; [congruence|..];
    cbn [NilEmpty.string_of_uint String.append];
    eexists _, _; (split; [reflexivity|]); repeat split; discriminate.
Qed.

Lemma parseInt10_plain (c : ascii) (tail : string) :
  isWhiteSpace c = false -> c <> "-"%char -> c <> "+"%char ->
  parseInt10 (String c tail) = readDigits None (String c tail).
Proof.
  intros Hw Hm Hp. unfold parseInt10. cbn [trimStart]. rewrite Hw.
  destruct c as [[] [] [] [] [] [] [] []]; try reflexivity; congruence.
Qed.

(** [parseInt] reads back the decimal rendering of an integer, and ignores
    what follows it from the first character that is not a digit. *)
Lemma parseInt10_string_of_Z (z : Z) (rest : string) :
  starts_with_digit rest = false ->
  parseInt10 (String.append (string_of_Z z) rest) = Some z.
Proof.
  intros Hrest. unfold string_of_Z.
  assert (Hpos : forall p,
    parseInt10 (String.append (NilEmpty.string_of_uint (Pos.to_uint p)) rest)
    = Some (Z.pos p)).
  { intros p. pose proof (DecimalPos.Unsigned.to_uint_nonnil p) as Hnil.
    destruct (string_of_uint_head _ rest Hnil) as (c & tail & Heq & Hw & Hm & Hp).
    rewrite Heq, (parseInt10_plain c tail Hw Hm Hp), <- Heq.
    now rewrite (readDigits_uint_first _ rest Hnil Hrest), uint_value_to_uint. }
  destruct z as [|p|p].
  - change (parseInt10 (String "0" rest) = Some 0).
    rewrite parseInt10_plain; [|reflexivity|discriminate|discriminate].
    change (readDigits None (String "0" rest)) with (readDigits (Some 0) rest).
    now apply readDigits_rest.
  - cbn [Z.to_int NilZero.string_of_int]. unfold NilZero.string_of_uint.
    pose proof (DecimalPos.Unsigned.to_uint_nonnil p) as Hnil.
    destruct (Pos.to_uint p) eqn:Hd; try congruence; rewrite <- Hd; apply Hpos.
  - cbn [Z.to_int NilZero.string_of_int]. unfold NilZero.string_of_uint.
    pose proof (DecimalPos.Unsigned.to_uint_nonnil p) as Hnil.
    assert (Hrender :
      match Pos.to_uint p with
      | Decimal.Nil => "0"
      | _ => NilEmpty.string_of_uint (Pos.to_uint p)
      end = NilEmpty.string_of_uint (Pos.to_uint p)).
    { destruct (Pos.to_uint p); congruence. }
    rewrite Hrender.
    change (option_map Z.opp
              (readDigits None
                 (String.append (NilEmpty.string_of_uint (Pos.to_uint p)) rest))
            = Some (Z.neg p)).
    rewrite (readDigits_uint_first _ rest Hnil Hrest), uint_value_to_uint.
    reflexivity.
Qed.

End Decimal.

Section ReadingIntegers.

Lemma append_empty_r (s : string) : String.append s "" = s.
Proof.
  induction s as [|c s IH]; [reflexivity|].
  change (String c (String.append s "") = String c s). now rewrite IH.
Qed.

Lemma getEnvAsInt_decimal (env : gmap string string) (key : string) (d z : Z)
    (rest : string) :
  env !! key = Some (String.append (string_of_Z z) rest) ->
  starts_with_digit rest = false ->
  ConfigJs.getEnvAsInt env key d = Normal z.
Proof.
  intros Hset Hrest. unfold ConfigJs.getEnvAsInt. rewrite Hset.
  pose proof (parseInt10_string_of_Z z rest Hrest) as Hparse.
  destruct (String.eqb_spec (String.append (string_of_Z z) rest) "") as [He|_].
  - rewrite He in Hparse. discriminate Hparse.
  - now rewrite Hparse.
Qed.

Lemma validate_ok (this : Config) :
  0 < maxTickets this -> 0 <= INFANT (ticketPrices this) ->
  0 <= CHILD (ticketPrices this) -> 0 < ADULT (ticketPrices this) ->
  ConfigJs.validate this = Normal tt.
Proof.
  intros Hmax Hinfant Hchild Hadult. unfold ConfigJs.validate.
  destruct (Z.leb_spec (maxTickets this) 0); [lia|].
  destruct (Z.ltb_spec (INFANT (ticketPrices this)) 0); [lia|].
  destruct (Z.ltb_spec (CHILD (ticketPrices this)) 0); [lia|].
  destruct (Z.ltb_spec (ADULT (ticketPrices this)) 0); [lia|].
  cbn [orb]. destruct (Z.leb_spec (ADULT (ticketPrices this)) 0); [lia|].
  reflexivity.
Qed.

End ReadingIntegers.

(** X14: [#getEnvAsInt] reads back a safe integer written in decimal, and it
    accepts trailing text: when the variable holds the decimal rendering of a
    safe integer [z] followed by anything that does not start with a digit,
    the result is [z], not an error and not the default. *)
Theorem X14_reads_decimal (env : gmap string string) (key : string) (d z : Z)
    (rest : string)
    (Hsafe : safe_integer z)
    (Hset : env !! key = Some (String.append (string_of_Z z) rest))
    (Hrest : starts_with_digit rest = false) :
  ConfigJs.getEnvAsInt env key d = Normal z.
Proof.
  unfold ConfigJs.getEnvAsInt. rewrite Hset.
  pose proof (parseInt10_string_of_Z z rest Hrest) as Hparse.
  destruct (String.eqb_spec (String.append (string_of_Z z) rest) "") as [He|_].
  - rewrite He in Hparse. discriminate Hparse.
  - now rewrite Hparse.
Qed.

Lemma X14_reads_decimal_witness :
  ConfigJs.getEnvAsInt (<["MAX_TICKETS" := "-30.5 tickets"]> ∅) "MAX_TICKETS" 25
  = Normal (-30).
Proof.
  apply (X14_reads_decimal _ "MAX_TICKETS" 25 (-30) ".5 tickets");
    [unfold safe_integer, MAX_SAFE_INTEGER; cbn; lia | reflexivity | reflexivity].
Defined.

(** X15: every configuration of safe integers that satisfies the invariant
    can be set through the environment: with the four integer variables
    holding the decimal renderings of a positive maximum, non-negative Infant
    and Child prices and a positive Adult price, none above
    [MAX_SAFE_INTEGER], and nothing else set, the constructor returns that
    configuration, with the ratio rule enforced. *)
Theorem X15_config_round_trip (max infant child adult : Z)
    (Hmax : 0 < max <= MAX_SAFE_INTEGER)
    (Hinfant : 0 <= infant <= MAX_SAFE_INTEGER)
    (Hchild : 0 <= child <= MAX_SAFE_INTEGER)
    (Hadult : 0 < adult <= MAX_SAFE_INTEGER) :
  ConfigJs.new
    (<["MAX_TICKETS" := string_of_Z max]>
      (<["TICKET_PRICE_INFANT" := string_of_Z infant]>
        (<["TICKET_PRICE_CHILD" := string_of_Z child]>
          (<["TICKET_PRICE_ADULT" := string_of_Z adult]> ∅))))
  = Normal {| maxTickets := max;
              ticketPrices := {| INFANT := infant; CHILD := child; ADULT := adult |};
              enforceInfantAdultRatio := true;
              nodeEnv := "development" |}.
Proof.
  unfold ConfigJs.new.
  rewrite (getEnvAsInt_decimal _ "MAX_TICKETS" 25 max "");
    [|now rewrite append_empty_r, lookup_insert_eq|reflexivity].
  rewrite (getEnvAsInt_decimal _ "TICKET_PRICE_INFANT" 0 infant "");
    [|rewrite append_empty_r, lookup_insert_ne by discriminate;
      now rewrite lookup_insert_eq|reflexivity].
  rewrite (getEnvAsInt_decimal _ "TICKET_PRICE_CHILD" 15 child "");
    [|rewrite append_empty_r, !lookup_insert_ne by discriminate;
      now rewrite lookup_insert_eq|reflexivity].
  rewrite (getEnvAsInt_decimal _ "TICKET_PRICE_ADULT" 25 adult "");
    [|rewrite append_empty_r, !lookup_insert_ne by discriminate;
      now rewrite lookup_insert_eq|reflexivity].
  cbn [ConfigJs.andThen]. cbv zeta.
  unfold ConfigJs.getEnvAsBool.
  rewrite !lookup_insert_ne by discriminate. rewrite lookup_empty.
  rewrite validate_ok; cbn [maxTickets ticketPrices INFANT CHILD ADULT];
    [reflexivity|lia..].
Qed.

Lemma X15_config_round_trip_witness :
  ConfigJs.new
    (<["MAX_TICKETS" := "40"]>
      (<["TICKET_PRICE_INFANT" := "0"]>
        (<["TICKET_PRICE_CHILD" := "12"]>
          (<["TICKET_PRICE_ADULT" := "30"]> ∅))))
  = Normal {| maxTickets := 40;
              ticketPrices := {| INFANT := 0; CHILD := 12; ADULT := 30 |};
              enforceInfantAdultRatio := true;
              nodeEnv := "development" |}.
Proof.
  apply (X15_config_round_trip 40 0 12 30); unfold MAX_SAFE_INTEGER; lia.
Defined.
